(** * Proctoring session state machine (app3.py)

    A shallow embedding of [ProctoringSession]: the registration handshake,
    the per-frame pipeline [process_frame] with its two polling gates, the
    identity check, the head-pose and attention scores and the two
    hysteresis timers.

    Conventions of the embedding.
    - Python floats (timestamps, scores, embeddings) are exact rationals [Q].
      Comparisons and the order of the arithmetic follow the source; rounding
      is outside the model.  The one division whose divisor can be zero, the
      similarity's, gives NumPy's nan or signed infinity ([npfloat]).
    - [self] is a [Session] record threaded through a state-and-exception
      monad.  A raised exception keeps the state reached so far, as Python
      does: nothing is rolled back.
    - The external collaborators (image decoder, face model, phone model,
      [np.linalg.norm]) are variables of a section; each one either returns
      or raises.  Every invocation of a model is appended to a call log, the
      counterpart of a call-counting stub.
    - [time.time()] is the argument [now] of the two operations.
    - An event is a Python dict literal: an association list from keys to
      values, in insertion order. *)

From Stdlib Require Import QArith Qabs Qround ZArith List String Bool Lia Lqa.
Import ListNotations.
Open Scope Q_scope.

(** ** Configuration constants *)

Definition AUTHORIZED_THRESHOLD : Q := 0.4.
Definition FOCUS_ALERT_TIME : Q := 3.0.
Definition PHONE_ALERT_SECONDS : Q := 1.0.
Definition FOCUS_THRESHOLD : Q := 60.0.

Definition FACE_CHECK_INTERVAL : Q := 5.0.
Definition PHONE_CHECK_INTERVAL : Q := 2.5.

Definition W_FACE : Q := 0.40.
Definition W_HEAD : Q := 0.50.
Definition W_PHONE : Q := 0.10.

(** ** Python arithmetic on floats *)

(** [a < b] as a boolean; [a >= b] is [Qle_bool b a]. *)
Definition Qlt_bool (a b : Q) : bool := negb (Qle_bool b a).

(** [max(a, b)] and [min(a, b)] return their first argument unless the second
    is strictly better. *)
Definition py_max (a b : Q) : Q := if Qlt_bool a b then b else a.
Definition py_min (a b : Q) : Q := if Qlt_bool b a then b else a.

(** [int(x)] truncates towards zero. *)
Definition py_int (x : Q) : Z := Z.quot (Qnum x) (Zpos (Qden x)).



(** ** Data model *)

(** A detected face of the face model: bounding box (x0, y0, x1, y1),
    landmark keypoints (possibly [None]) and the embedding vector. *)
Record Face := mkFace {
  bbox : Q * Q * Q * Q;
  kps : option (list (Q * Q));
  embedding : list Q
}.

Record Session := mkSession {
  ref_embedding : option (list Q);
  last_face_check_time : Q;
  last_faces : list Face;
  last_authorized : bool;
  last_phone_check_time : Q;
  last_phone_present : bool;
  phone_presence_start_time : option Q;
  distracted_start_time : option Q
}.

(** The fields [__init__] assigns (the two models are the section variables
    below). *)
Definition __init__ : Session :=
  {| ref_embedding := None;
     last_face_check_time := 0.0;
     last_faces := [];
     last_authorized := false;
     last_phone_check_time := 0.0;
     last_phone_present := false;
     phone_presence_start_time := None;
     distracted_start_time := None |}.

(** Attribute assignments [self.f = v]. *)
Definition set_ref_embedding (v : option (list Q)) (s : Session) : Session :=
  {| ref_embedding := v;
     last_face_check_time := last_face_check_time s;
     last_faces := last_faces s;
     last_authorized := last_authorized s;
     last_phone_check_time := last_phone_check_time s;
     last_phone_present := last_phone_present s;
     phone_presence_start_time := phone_presence_start_time s;
     distracted_start_time := distracted_start_time s |}.

Definition set_last_face_check_time (v : Q) (s : Session) : Session :=
  {| ref_embedding := ref_embedding s;
     last_face_check_time := v;
     last_faces := last_faces s;
     last_authorized := last_authorized s;
     last_phone_check_time := last_phone_check_time s;
     last_phone_present := last_phone_present s;
     phone_presence_start_time := phone_presence_start_time s;
     distracted_start_time := distracted_start_time s |}.

Definition set_last_faces (v : list Face) (s : Session) : Session :=
  {| ref_embedding := ref_embedding s;
     last_face_check_time := last_face_check_time s;
     last_faces := v;
     last_authorized := last_authorized s;
     last_phone_check_time := last_phone_check_time s;
     last_phone_present := last_phone_present s;
     phone_presence_start_time := phone_presence_start_time s;
     distracted_start_time := distracted_start_time s |}.

Definition set_last_authorized (v : bool) (s : Session) : Session :=
  {| ref_embedding := ref_embedding s;
     last_face_check_time := last_face_check_time s;
     last_faces := last_faces s;
     last_authorized := v;
     last_phone_check_time := last_phone_check_time s;
     last_phone_present := last_phone_present s;
     phone_presence_start_time := phone_presence_start_time s;
     distracted_start_time := distracted_start_time s |}.

Definition set_last_phone_check_time (v : Q) (s : Session) : Session :=
  {| ref_embedding := ref_embedding s;
     last_face_check_time := last_face_check_time s;
     last_faces := last_faces s;
     last_authorized := last_authorized s;
     last_phone_check_time := v;
     last_phone_present := last_phone_present s;
     phone_presence_start_time := phone_presence_start_time s;
     distracted_start_time := distracted_start_time s |}.

Definition set_last_phone_present (v : bool) (s : Session) : Session :=
  {| ref_embedding := ref_embedding s;
     last_face_check_time := last_face_check_time s;
     last_faces := last_faces s;
     last_authorized := last_authorized s;
     last_phone_check_time := last_phone_check_time s;
     last_phone_present := v;
     phone_presence_start_time := phone_presence_start_time s;
     distracted_start_time := distracted_start_time s |}.

Definition set_phone_presence_start_time (v : option Q) (s : Session) : Session :=
  {| ref_embedding := ref_embedding s;
     last_face_check_time := last_face_check_time s;
     last_faces := last_faces s;
     last_authorized := last_authorized s;
     last_phone_check_time := last_phone_check_time s;
     last_phone_present := last_phone_present s;
     phone_presence_start_time := v;
     distracted_start_time := distracted_start_time s |}.

Definition set_distracted_start_time (v : option Q) (s : Session) : Session :=
  {| ref_embedding := ref_embedding s;
     last_face_check_time := last_face_check_time s;
     last_faces := last_faces s;
     last_authorized := last_authorized s;
     last_phone_check_time := last_phone_check_time s;
     last_phone_present := last_phone_present s;
     phone_presence_start_time := phone_presence_start_time s;
     distracted_start_time := v |}.

(** ** Floats that need not be finite

    A NumPy scalar division does not raise on a zero divisor: it gives nan
    for 0/0 and an infinity with the dividend's sign otherwise; every
    comparison with nan is false. *)

Inductive npfloat :=
| Finite (q : Q)
| PosInf
| NegInf
| NaN.

Coercion Finite : Q >-> npfloat.

Definition np_divide (x y : Q) : npfloat :=
  if Qeq_bool y 0 then
    if Qeq_bool x 0 then NaN
    else if Qlt_bool 0 x then PosInf else NegInf
  else Finite (x / y).

(** [x <= y] for a finite [y]. *)
Definition np_le (x : npfloat) (y : Q) : bool :=
  match x with
  | Finite q => Qle_bool q y
  | NegInf => true
  | PosInf => false
  | NaN => false
  end.

(** ** Events: dict literals *)

Inductive Value :=
| VStr (s : string)
| VFloat (x : npfloat)
| VInt (z : Z).

Definition Event := list (string * Value).

Fixpoint dict_get (k : string) (d : Event) : option Value :=
  match d with
  | [] => None
  | (k', v) :: d' => if String.eqb k k' then Some v else dict_get k d'
  end.

(** [kind_is k e]: the dict's "event" entry is the string [k]. *)
Definition kind_is (k : string) (e : Event) : bool :=
  match dict_get "event" e with
  | Some (VStr k') => String.eqb k k'
  | _ => false
  end.

Definition ERROR (message : string) : Event :=
  [("event"%string, VStr "ERROR"); ("message"%string, VStr message)].

Definition FACE_NOT_FOUND (now : Q) : Event :=
  [("event"%string, VStr "FACE_NOT_FOUND"); ("timestamp"%string, VFloat now)].

Definition MULTIPLE_FACES (count : nat) (now : Q) : Event :=
  [("event"%string, VStr "MULTIPLE_FACES");
   ("count"%string, VInt (Z.of_nat count));
   ("timestamp"%string, VFloat now)].

Definition UNAUTHORIZED_PERSON (sim : npfloat) (now : Q) : Event :=
  [("event"%string, VStr "UNAUTHORIZED_PERSON");
   ("similarity"%string, VFloat sim);
   ("timestamp"%string, VFloat now)].

Definition PHONE_DETECTED (now : Q) : Event :=
  [("event"%string, VStr "PHONE_DETECTED"); ("timestamp"%string, VFloat now)].

Definition LOOKING_AWAY (score : Z) (now : Q) : Event :=
  [("event"%string, VStr "LOOKING_AWAY");
   ("score"%string, VInt score);
   ("timestamp"%string, VFloat now)].

(** The events the body can return on a frame read at time [now]. *)
Inductive frame_event (now : Q) : Event -> Prop :=
| fe_face_not_found : frame_event now (FACE_NOT_FOUND now)
| fe_multiple_faces n : frame_event now (MULTIPLE_FACES n now)
| fe_unauthorized sim : frame_event now (UNAUTHORIZED_PERSON sim now)
| fe_phone_detected : frame_event now (PHONE_DETECTED now)
| fe_looking_away score : frame_event now (LOOKING_AWAY score now).

(** ** Exceptions and outcomes *)

Inductive Exception :=
| TypeError
| ValueError
| CollaboratorError (what : string).

Inductive Outcome (A : Type) :=
| Return (a : A)
| Raise (e : Exception).
Arguments Return {A} a.
Arguments Raise {A} e.

(** ** Head pose scorer

    The [try] of [_compute_head_score] guards indexing and arithmetic on the
    keypoints; with keypoints as pairs and a four-scalar box nothing in it
    can raise, so the handler's [0.0] has no counterpart here. *)
Definition _compute_head_score (face : Face) : Q :=
  match kps face with
  | None => 0.0
  | Some (left_eye :: right_eye :: nose :: _) =>
      let '(_, y0, _, y1) := bbox face in
      let eye_distance := py_max (fst right_eye - fst left_eye) 1e-6 in
      let nose_center_offset :=
        (fst nose - (fst left_eye + fst right_eye) / 2.0) / eye_distance in
      let face_height := py_max (y1 - y0) 1e-6 in
      let eye_y_avg := (snd left_eye + snd right_eye) / 2.0 in
      let vert_offset := (snd nose - eye_y_avg) / face_height in
      let HORIZ_THRESHOLD := 0.35 in
      let VERT_THRESHOLD := 0.25 in
      let SEVERE_HORIZ := 0.5 in
      let SEVERE_VERT := 0.4 in
      let horiz_score :=
        py_max 0.0 (1.0 - Qabs nose_center_offset / HORIZ_THRESHOLD) in
      let vert_score :=
        py_max 0.0 (1.0 - Qabs vert_offset / VERT_THRESHOLD) in
      let head_score := (horiz_score + vert_score) / 2.0 in
      let head_score :=
        if Qlt_bool SEVERE_HORIZ (Qabs nose_center_offset)
           || Qlt_bool SEVERE_VERT (Qabs vert_offset)
        then head_score * 0.3 else head_score in
      let head_score :=
        if Qlt_bool (Qabs nose_center_offset) (HORIZ_THRESHOLD / 2)
           && Qlt_bool (Qabs vert_offset) (VERT_THRESHOLD / 2)
        then py_min 1.0 (head_score * 1.2) else head_score in
      head_score
  | Some _ => 0.0
  end.

(** ** Attention aggregator (section 3 of [process_frame]) *)

Definition attention_of (head_score face_score phone_pen : Q) : Q :=
  let base_score :=
    (W_FACE * face_score + W_HEAD * head_score + W_PHONE * (1 - phone_pen))
    / (W_FACE + W_HEAD + W_PHONE) in
  let attention_score := base_score * 100 in
  if Qlt_bool 0.8 head_score
  then py_min 100 (attention_score * 1.1)
  else attention_score.

Definition attention_score (faces : list Face) (authorized phone_present : bool) : Q :=
  let person_count := List.length faces in
  let face_present := Nat.eqb person_count 1 in
  let head_score :=
    if face_present && authorized
    then match faces with
         | f :: _ => _compute_head_score f
         | [] => 0.0 (* not reached: [face_present] gives one face *)
         end
    else 0.0 in
  let face_score := if face_present && authorized then 1.0 else 0.0 in
  let phone_pen := if phone_present then 1.0 else 0.0 in
  if negb face_present || negb authorized
  then 0.0
  else attention_of head_score face_score phone_pen.

(** ** State-and-exception monad over the session and the call log *)

Inductive Call :=
| FaceAppGet
| PhoneDetectorDetect.

(** The two operations of a session, for traces of calls. *)
Inductive Op :=
| OpRegister (now : Q) (frame_bytes : list Byte.byte)
| OpProcessFrame (now : Q) (frame_bytes : list Byte.byte).

(** How often a collaborator was invoked. *)
Definition calls_of (c : Call) (log : list Call) : nat :=
  List.length (filter (fun c' => match c, c' with
                                 | FaceAppGet, FaceAppGet => true
                                 | PhoneDetectorDetect, PhoneDetectorDetect => true
                                 | _, _ => false
                                 end) log).

Definition World : Type := Session * list Call.

Definition M (A : Type) : Type := World -> Outcome A * World.

Definition ret {A} (a : A) : M A := fun w => (Return a, w).

Definition raise {A} (e : Exception) : M A := fun w => (Raise e, w).

Definition bind {A B} (m : M A) (k : A -> M B) : M B :=
  fun w =>
    match m w with
    | (Return a, w') => k a w'
    | (Raise e, w') => (Raise e, w')
    end.

Notation "x <- m ;; k" := (bind m (fun x => k))
  (at level 61, m at next level, right associativity).
Notation "m ;; k" := (bind m (fun _ => k))
  (at level 61, right associativity).

(** Read [self]. *)
Definition self : M Session := fun w => (Return (fst w), w).

(** [self.f = v], through one of the setters. *)
Definition assign (f : Session -> Session) : M unit :=
  fun w => (Return tt, (f (fst w), snd w)).

(** Invoke a collaborator: the call is logged whether it returns or raises. *)
Definition invoke {A} (c : Call) (r : Outcome A) : M A :=
  fun w => (r, (fst w, snd w ++ [c])).

(** An expression that may raise and touches no state. *)
Definition eval {A} (r : Outcome A) : M A := fun w => (r, w).

(** [np.dot] of two one-dimensional arrays; shapes that differ raise. *)
Fixpoint np_dot (a b : list Q) : Outcome Q :=
  match a, b with
  | [], [] => Return 0
  | x :: a', y :: b' =>
      match np_dot a' b' with
      | Return d => Return (x * y + d)
      | Raise e => Raise e
      end
  | _, _ => Raise ValueError
  end.

Section Collaborators.

Variable Image : Type.

(** [np.frombuffer] then [cv2.imdecode]: an image, [None], or an exception. *)
Variable cv2_imdecode : list Byte.byte -> Outcome (option Image).

(** [FaceAnalysis.get] and the presence flag of [PhoneDetector.detect]. *)
Variable face_app_get : Image -> Outcome (list Face).
Variable phone_detector_detect : Image -> Outcome bool.

(** [np.linalg.norm] of a vector (a square root, so not rational in general). *)
Variable np_linalg_norm : list Q -> Q.

Definition _decode_frame (frame_bytes : list Byte.byte) : option Image :=
  match cv2_imdecode frame_bytes with
  | Return frame => frame
  | Raise _ => None
  end.

(** The similarity expression of [process_frame]; [np.dot] on [None]
    raises, a zero norm does not. *)
Definition similarity (ref : option (list Q)) (emb : list Q) : Outcome npfloat :=
  match ref with
  | None => Raise TypeError
  | Some r =>
      match np_dot r emb with
      | Return d =>
          Return (np_divide d (np_linalg_norm r * np_linalg_norm emb))
      | Raise e => Raise e
      end
  end.

(** *** [register_user_from_frame] *)

Definition register_body (now : Q) (frame_bytes : list Byte.byte)
  : M (bool * string) :=
  match _decode_frame frame_bytes with
  | None => ret (false, "Invalid image data."%string)
  | Some frame =>
      faces <- invoke FaceAppGet (face_app_get frame) ;;
      match faces with
      | [] => ret (false, "No face found in registration frame."%string)
      | _ :: _ :: _ =>
          ret (false, "Multiple faces found. Only one person allowed."%string)
      | [f] =>
          assign (set_ref_embedding (Some (embedding f))) ;;
          assign (set_last_faces faces) ;;
          assign (set_last_authorized true) ;;
          assign (set_last_face_check_time now) ;;
          assign (set_last_phone_check_time now) ;;
          ret (true, "User registered successfully."%string)
      end
  end.

Definition register_user_from_frame (now : Q) (frame_bytes : list Byte.byte)
  (w : World) : (bool * string) * World :=
  match ref_embedding (fst w) with
  | Some _ => ((false, "User is already registered."%string), w)
  | None =>
      match register_body now frame_bytes w with
      | (Return r, w') => (r, w')
      | (Raise _, w') => ((false, "An internal error occurred."%string), w')
      end
  end.

(** *** [process_frame] *)

(** 1. Face detection, run when the face interval has elapsed. *)
Definition face_detection (now : Q) (frame : Image) (events : list Event)
  : M (list Event) :=
  s <- self ;;
  if Qle_bool FACE_CHECK_INTERVAL (now - last_face_check_time s) then
    assign (set_last_face_check_time now) ;;
    faces <- invoke FaceAppGet (face_app_get frame) ;;
    assign (set_last_faces faces) ;;
    match faces with
    | [] =>
        assign (set_last_authorized false) ;;
        ret (events ++ [FACE_NOT_FOUND now])
    | _ :: _ :: _ =>
        assign (set_last_authorized false) ;;
        ret (events ++ [MULTIPLE_FACES (List.length faces) now])
    | [f] =>
        s <- self ;;
        sim <- eval (similarity (ref_embedding s) (embedding f)) ;;
        if np_le sim AUTHORIZED_THRESHOLD then
          assign (set_last_authorized false) ;;
          ret (events ++ [UNAUTHORIZED_PERSON sim now])
        else
          assign (set_last_authorized true) ;;
          ret events
    end
  else ret events.

(** 2. Phone detection, run when the phone interval has elapsed, then the
    phone timer on the cached flag. *)
Definition phone_detection (now : Q) (frame : Image) (events : list Event)
  : M (list Event) :=
  s <- self ;;
  (if Qle_bool PHONE_CHECK_INTERVAL (now - last_phone_check_time s) then
     assign (set_last_phone_check_time now) ;;
     phone_present <- invoke PhoneDetectorDetect (phone_detector_detect frame) ;;
     assign (set_last_phone_present phone_present)
   else ret tt) ;;
  s <- self ;;
  let phone_present := last_phone_present s in
  if phone_present then
    match phone_presence_start_time s with
    | None => assign (set_phone_presence_start_time (Some now)) ;; ret events
    | Some start =>
        if Qle_bool PHONE_ALERT_SECONDS (now - start)
        then ret (events ++ [PHONE_DETECTED now])
        else ret events
    end
  else
    assign (set_phone_presence_start_time None) ;; ret events.

(** 3 and 4. Attention score from the cached state, then the distraction
    timer.  The source reads [last_faces] and [last_authorized] into locals
    before section 2; section 2 writes neither, so reading them here gives
    the same values. *)
Definition distraction_alert (now : Q) (events : list Event) : M (list Event) :=
  s <- self ;;
  let authorized := last_authorized s in
  let attention := attention_score (last_faces s) authorized (last_phone_present s) in
  if Qlt_bool attention FOCUS_THRESHOLD && authorized then
    match distracted_start_time s with
    | None => assign (set_distracted_start_time (Some now)) ;; ret events
    | Some start =>
        if Qle_bool FOCUS_ALERT_TIME (now - start)
        then ret (events ++ [LOOKING_AWAY (py_int attention) now])
        else ret events
    end
  else
    assign (set_distracted_start_time None) ;; ret events.

(** The body of the [try]. *)
Definition process_frame_body (now : Q) (frame_bytes : list Byte.byte)
  : M (list Event) :=
  match _decode_frame frame_bytes with
  | None => ret [ERROR "Invalid frame data."]
  | Some frame =>
      events <- face_detection now frame [] ;;
      events <- phone_detection now frame events ;;
      distraction_alert now events
  end.

Definition process_frame (now : Q) (frame_bytes : list Byte.byte) (w : World)
  : list Event * World :=
  match process_frame_body now frame_bytes w with
  | (Return events, w') => (events, w')
  | (Raise _, w') => ([ERROR "An internal error occurred."], w')
  end.

(** *** Traces and runs *)

Definition step (op : Op) (w : World) : World :=
  match op with
  | OpRegister now frame_bytes => snd (register_user_from_frame now frame_bytes w)
  | OpProcessFrame now frame_bytes => snd (process_frame now frame_bytes w)
  end.

Definition run (ops : list Op) (w : World) : World :=
  fold_left (fun w op => step op w) ops w.

(** The phone model is invoked on this call and raises. *)
Definition phone_model_fails (now : Q) (frame : Image) (s : Session) : Prop :=
  PHONE_CHECK_INTERVAL <= now - last_phone_check_time s /\
  exists e, phone_detector_detect frame = Raise e.

(** The three ways a decoded frame can go through the body. *)
Inductive body_run (now : Q) (frame : Image) (w : World)
  : Outcome (list Event) -> World -> Prop :=
| run_face_raises e w1 :
    face_detection now frame [] w = (Raise e, w1) ->
    body_run now frame w (Raise e) w1
| run_phone_raises ev1 w1 e w2 :
    face_detection now frame [] w = (Return ev1, w1) ->
    phone_detection now frame ev1 w1 = (Raise e, w2) ->
    body_run now frame w (Raise e) w2
| run_completes ev1 w1 ev2 w2 ev3 w3 :
    face_detection now frame [] w = (Return ev1, w1) ->
    phone_detection now frame ev1 w1 = (Return ev2, w2) ->
    distraction_alert now ev2 w2 = (Return ev3, w3) ->
    body_run now frame w (Return ev3) w3.

End Collaborators.

Arguments _decode_frame {Image} cv2_imdecode frame_bytes.
Arguments register_body {Image} cv2_imdecode face_app_get now frame_bytes.
Arguments register_user_from_frame {Image} cv2_imdecode face_app_get now frame_bytes w.
Arguments face_detection {Image} face_app_get np_linalg_norm now frame events.
Arguments phone_detection {Image} phone_detector_detect now frame events.
Arguments process_frame_body {Image} cv2_imdecode face_app_get phone_detector_detect
  np_linalg_norm now frame_bytes.
Arguments process_frame {Image} cv2_imdecode face_app_get phone_detector_detect
  np_linalg_norm now frame_bytes w.
Arguments step {Image} cv2_imdecode face_app_get phone_detector_detect
  np_linalg_norm op w.
Arguments run {Image} cv2_imdecode face_app_get phone_detector_detect
  np_linalg_norm ops w.
Arguments phone_model_fails {Image} phone_detector_detect now frame s.
Arguments body_run {Image} face_app_get phone_detector_detect np_linalg_norm
  now frame w _ _.

(** ** Stub collaborators and concrete sessions

    Used to run the operations on explicit inputs.  A frame's bytes script
    the collaborators: no byte fails to decode; the first byte chooses what
    the face model does, the second what the phone model does. *)

Definition stub_imdecode (frame_bytes : list Byte.byte)
  : Outcome (option (list Byte.byte)) :=
  match frame_bytes with
  | [] => Return None
  | _ => Return (Some frame_bytes)
  end.

(** A face looking straight at the camera, and a second person. *)
Definition face_front : Face :=
  {| bbox := (0, 0, 4, 4);
     kps := Some [(1, 1); (3, 1); (2, 1)];
     embedding := [1; 0; 0; 0] |}.

Definition face_other : Face :=
  {| bbox := (0, 0, 4, 4);
     kps := Some [(1, 1); (3, 1); (2, 1)];
     embedding := [2; 4; 2; 1] |}.

(** A face turned far to the side: the nose lies outside the eyes. *)
Definition face_away : Face :=
  {| bbox := (0, 0, 4, 4);
     kps := Some [(1, 1); (3, 1); (5, 3)];
     embedding := [1; 0; 0; 0] |}.

(** A face whose embedding is the zero vector. *)
Definition face_zero : Face :=
  {| bbox := (0, 0, 4, 4);
     kps := Some [(1, 1); (3, 1); (2, 1)];
     embedding := [0; 0; 0; 0] |}.

Definition stub_face_get (frame : list Byte.byte) : Outcome (list Face) :=
  match frame with
  | Byte.x00 :: _ => Return []
  | Byte.x01 :: _ => Return [face_front]
  | Byte.x02 :: _ => Return [face_front; face_other]
  | Byte.x03 :: _ => Return [face_other]
  | Byte.x04 :: _ => Return [face_away]
  | Byte.x06 :: _ => Return [face_zero]
  | _ => Raise (CollaboratorError "face model")
  end.

Definition stub_phone_detect (frame : list Byte.byte) : Outcome bool :=
  match frame with
  | _ :: Byte.x00 :: _ => Return false
  | _ :: Byte.x01 :: _ => Return true
  | _ => Raise (CollaboratorError "phone model")
  end.

(** The Euclidean norm where the sum of squares is a perfect square (the
    integer square root elsewhere). *)
Definition stub_norm (v : list Q) : Q :=
  inject_Z (Z.sqrt (Qfloor (fold_right (fun x acc => x * x + acc) 0 v))).

Definition stub_register :=
  register_user_from_frame stub_imdecode stub_face_get.
Definition stub_process_frame :=
  process_frame stub_imdecode stub_face_get stub_phone_detect stub_norm.

(** Frames for the stubs: [frame a b] makes the face model take branch [a]
    and the phone model branch [b]. *)
Definition frame (a b : Byte.byte) : list Byte.byte := [a; b].

(** A session registered at time 100 with [face_front]. *)
Definition registered : Session :=
  {| ref_embedding := Some [1; 0; 0; 0];
     last_face_check_time := 100;
     last_faces := [face_front];
     last_authorized := true;
     last_phone_check_time := 100;
     last_phone_present := false;
     phone_presence_start_time := None;
     distracted_start_time := None |}.

(** The same session with a phone cached as present since time 100. *)
Definition phone_armed : Session :=
  set_phone_presence_start_time (Some 100) (set_last_phone_present true registered).

(** The same session with the person looking away since time 100. *)
Definition looking_away : Session :=
  set_distracted_start_time (Some 100) (set_last_faces [face_away] registered).

(** ** The head pose scorer, step by step

    The locals of [_compute_head_score] as functions of the keypoints, and
    the score as a function of the two offsets; [_compute_head_score] is
    their composition (see [compute_head_score_offsets]). *)

Definition nose_center_offset (left_eye right_eye nose : Q * Q) : Q :=
  (fst nose - (fst left_eye + fst right_eye) / 2.0)
  / py_max (fst right_eye - fst left_eye) 1e-6.

Definition vert_offset (box : Q * Q * Q * Q) (left_eye right_eye nose : Q * Q) : Q :=
  let '(_, y0, _, y1) := box in
  (snd nose - (snd left_eye + snd right_eye) / 2.0) / py_max (y1 - y0) 1e-6.

Definition head_score_of (horiz vert : Q) : Q :=
  let horiz_score := py_max 0.0 (1.0 - Qabs horiz / 0.35) in
  let vert_score := py_max 0.0 (1.0 - Qabs vert / 0.25) in
  let head_score := (horiz_score + vert_score) / 2.0 in
  let head_score :=
    if Qlt_bool 0.5 (Qabs horiz) || Qlt_bool 0.4 (Qabs vert)
    then head_score * 0.3 else head_score in
  if Qlt_bool (Qabs horiz) (0.35 / 2) && Qlt_bool (Qabs vert) (0.25 / 2)
  then py_min 1.0 (head_score * 1.2) else head_score.

(** ** Session invariant

    An authorized session is registered and caches exactly one face. *)
Definition authorized_ok (s : Session) : Prop :=
  last_authorized s = true ->
  ref_embedding s <> None /\ List.length (last_faces s) = 1%nat.

(** A face whose landmarks are missing, and one with two landmarks only. *)
Definition face_no_kps : Face :=
  {| bbox := (0, 0, 4, 4); kps := None; embedding := [1; 0; 0; 0] |}.

Definition face_two_kps : Face :=
  {| bbox := (0, 0, 4, 4); kps := Some [(1, 1); (3, 1)]; embedding := [1; 0; 0; 0] |}.

(** A face turned slightly: nose a fifth of the eye distance off centre. *)
Definition face_slight : Face :=
  {| bbox := (0, 0, 10, 10);
     kps := Some [(0, 1); (10, 1); (6, 2)];
     embedding := [1; 0; 0; 0] |}.

(** A face-section event: [FACE_NOT_FOUND], [MULTIPLE_FACES] or
    [UNAUTHORIZED_PERSON]. *)
Definition is_face_event (e : Event) : bool :=
  kind_is "FACE_NOT_FOUND" e || kind_is "MULTIPLE_FACES" e
  || kind_is "UNAUTHORIZED_PERSON" e.

(** A caller's loop: frames, each read at its own time, fed to
    [process_frame] in order; the event lists are collected. *)
Fixpoint process_frames {Image : Type}
  (cv2_imdecode : list Byte.byte -> Outcome (option Image))
  (face_app_get : Image -> Outcome (list Face))
  (phone_detector_detect : Image -> Outcome bool)
  (np_linalg_norm : list Q -> Q)
  (frames : list (Q * list Byte.byte)) (w : World)
  : list (list Event) * World :=
  match frames with
  | [] => ([], w)
  | (now, frame_bytes) :: rest =>
      let '(events, w1) :=
        process_frame cv2_imdecode face_app_get phone_detector_detect
          np_linalg_norm now frame_bytes w in
      let '(outs, w2) :=
        process_frames cv2_imdecode face_app_get phone_detector_detect
          np_linalg_norm rest w1 in
      (events :: outs, w2)
  end.

(** * Properties *)

Lemma Qlt_bool_iff (a b : Q) : Qlt_bool a b = true <-> a < b.
Proof.
  unfold Qlt_bool. rewrite negb_true_iff.
  split; intro H.
  - apply Qnot_le_lt. intro L. apply Qle_bool_iff in L. congruence.
  - destruct (Qle_bool b a) eqn:E; [|reflexivity].
    apply Qle_bool_iff in E. exfalso. apply (Qlt_not_le _ _ H E).
Qed.

Lemma Qle_bool_false_iff (a b : Q) : Qle_bool a b = false <-> b < a.
Proof.
  rewrite <- Qlt_bool_iff. unfold Qlt_bool.
  destruct (Qle_bool a b); simpl; intuition congruence.
Qed.

Lemma calls_of_app c l1 l2 : calls_of c (l1 ++ l2) = (calls_of c l1 + calls_of c l2)%nat.
Proof. unfold calls_of. now rewrite filter_app, length_app. Qed.

Section Properties.

Variable Image : Type.
Variable cv2_imdecode : list Byte.byte -> Outcome (option Image).
Variable face_app_get : Image -> Outcome (list Face).
Variable phone_detector_detect : Image -> Outcome bool.
Variable np_linalg_norm : list Q -> Q.

Local Abbreviation decode := (_decode_frame cv2_imdecode).
Local Abbreviation register := (register_user_from_frame cv2_imdecode face_app_get).
Local Abbreviation faces_step := (face_detection face_app_get np_linalg_norm).
Local Abbreviation phone_step := (phone_detection phone_detector_detect).
Local Abbreviation body :=
  (process_frame_body cv2_imdecode face_app_get phone_detector_detect np_linalg_norm).
Local Abbreviation process :=
  (process_frame cv2_imdecode face_app_get phone_detector_detect np_linalg_norm).
Local Abbreviation run :=
  (run cv2_imdecode face_app_get phone_detector_detect np_linalg_norm).
Local Abbreviation phone_model_fails := (phone_model_fails phone_detector_detect).
Local Abbreviation body_run :=
  (body_run face_app_get phone_detector_detect np_linalg_norm).

(** *** What each section of [process_frame] does to the world *)

Ltac monad_unfold :=
  unfold bind, ret, raise, self, assign, invoke, eval in *; simpl in *.

Ltac break_match :=
  match goal with
  | H : context [match ?x with _ => _ end] |- _ =>
      let E := fresh "E" in destruct x eqn:E; simpl in H
  | |- context [match ?x with _ => _ end] =>
      let E := fresh "E" in destruct x eqn:E; simpl
  end.

Ltac inv_pair :=
  repeat match goal with
    | H : (_, _) = (_, _) |- _ => inversion H; subst; clear H
    | H : Return _ = Return _ |- _ => inversion H; subst; clear H
    | H : Raise _ = Return _ |- _ => discriminate H
    | H : Return _ = Raise _ |- _ => discriminate H
    end.

(** Section 1 closed gate: a no-op. *)
Lemma face_detection_closed now frame events s log :
  now - last_face_check_time s < FACE_CHECK_INTERVAL ->
  faces_step now frame events (s, log) = (Return events, (s, log)).
Proof.
  intro H. apply Qle_bool_false_iff in H.
  unfold face_detection. monad_unfold. now rewrite H.
Qed.

(** Section 1 leaves the phone fields, both timers and the reference alone. *)
Lemma face_detection_frame now frame events w r w' :
  faces_step now frame events w = (r, w') ->
  ref_embedding (fst w') = ref_embedding (fst w) /\
  last_phone_check_time (fst w') = last_phone_check_time (fst w) /\
  last_phone_present (fst w') = last_phone_present (fst w) /\
  phone_presence_start_time (fst w') = phone_presence_start_time (fst w) /\
  distracted_start_time (fst w') = distracted_start_time (fst w) /\
  calls_of PhoneDetectorDetect (snd w') = calls_of PhoneDetectorDetect (snd w).
Proof.
  destruct w as [s log]. unfold face_detection. monad_unfold. intro H.
  repeat break_match; inv_pair; simpl;
    rewrite ?calls_of_app; simpl; rewrite ?Nat.add_0_r; repeat split; reflexivity.
Qed.

(** Section 2 leaves the face fields, the distraction timer and the
    reference alone. *)
Lemma phone_detection_frame now frame events w r w' :
  phone_step now frame events w = (r, w') ->
  ref_embedding (fst w') = ref_embedding (fst w) /\
  last_face_check_time (fst w') = last_face_check_time (fst w) /\
  last_faces (fst w') = last_faces (fst w) /\
  last_authorized (fst w') = last_authorized (fst w) /\
  distracted_start_time (fst w') = distracted_start_time (fst w) /\
  calls_of FaceAppGet (snd w') = calls_of FaceAppGet (snd w).
Proof.
  destruct w as [s log]. unfold phone_detection. monad_unfold. intro H.
  repeat break_match; inv_pair; simpl;
    rewrite ?calls_of_app; simpl; rewrite ?Nat.add_0_r; repeat split; reflexivity.
Qed.

(** Sections 3 and 4 never raise, invoke nothing, and write the distraction
    timer only. *)
Lemma distraction_alert_frame now events w r w' :
  distraction_alert now events w = (r, w') ->
  (exists events', r = Return events') /\
  snd w' = snd w /\
  ref_embedding (fst w') = ref_embedding (fst w) /\
  last_face_check_time (fst w') = last_face_check_time (fst w) /\
  last_faces (fst w') = last_faces (fst w) /\
  last_authorized (fst w') = last_authorized (fst w) /\
  last_phone_check_time (fst w') = last_phone_check_time (fst w) /\
  last_phone_present (fst w') = last_phone_present (fst w) /\
  phone_presence_start_time (fst w') = phone_presence_start_time (fst w).
Proof.
  destruct w as [s log]. unfold distraction_alert. monad_unfold. intro H.
  repeat break_match; inv_pair; simpl; repeat split; eauto.
Qed.

Lemma body_decoded now frame_bytes frame w :
  decode frame_bytes = Some frame ->
  body now frame_bytes w =
    (events <- faces_step now frame [] ;;
     events <- phone_step now frame events ;;
     distraction_alert now events) w.
Proof. intro H. unfold process_frame_body. now rewrite H. Qed.

Lemma process_decode_failure now frame_bytes w :
  decode frame_bytes = None ->
  process now frame_bytes w = ([ERROR "Invalid frame data."], w).
Proof.
  intro H. unfold process_frame, process_frame_body. now rewrite H.
Qed.

Lemma body_run_intro now frame_bytes frame w r w' :
  decode frame_bytes = Some frame ->
  body now frame_bytes w = (r, w') ->
  body_run now frame w r w'.
Proof.
  intros Hd H. rewrite (body_decoded now _ _ w Hd) in H. unfold bind in H.
  destruct (faces_step now frame [] w) as [[ev1|e] w1] eqn:E1.
  - destruct (phone_step now frame ev1 w1) as [[ev2|e] w2] eqn:E2.
    + destruct (distraction_alert_frame _ _ _ _ _ H) as [[ev3 ->] _].
      eapply run_completes; eauto.
    + inv_pair. eapply run_phone_raises; eauto.
  - inv_pair. now apply run_face_raises.
Qed.

(** Section 1 with the gate open and a face model that returns. *)
Lemma face_detection_open now frame events s log faces :
  FACE_CHECK_INTERVAL <= now - last_face_check_time s ->
  face_app_get frame = Return faces ->
  let s1 := set_last_faces faces (set_last_face_check_time now s) in
  let log1 := log ++ [FaceAppGet] in
  faces_step now frame events (s, log) =
    match faces with
    | [] => (Return (events ++ [FACE_NOT_FOUND now]),
             (set_last_authorized false s1, log1))
    | _ :: _ :: _ =>
        (Return (events ++ [MULTIPLE_FACES (List.length faces) now]),
         (set_last_authorized false s1, log1))
    | [f] =>
        match similarity np_linalg_norm (ref_embedding s) (embedding f) with
        | Raise e => (Raise e, (s1, log1))
        | Return sim =>
            if np_le sim AUTHORIZED_THRESHOLD
            then (Return (events ++ [UNAUTHORIZED_PERSON sim now]),
                  (set_last_authorized false s1, log1))
            else (Return events, (set_last_authorized true s1, log1))
        end
    end.
Proof.
  intros Hg Hf. apply Qle_bool_iff in Hg.
  unfold face_detection. monad_unfold. rewrite Hg, Hf.
  destruct faces as [|f [|f' fs]]; simpl; try reflexivity.
  destruct (similarity _ _ _) as [sim|e]; simpl; [|reflexivity].
  destruct (np_le sim _); reflexivity.
Qed.

(** Section 1 with the gate open and a face model that raises. *)
Lemma face_detection_raises now frame events s log e :
  FACE_CHECK_INTERVAL <= now - last_face_check_time s ->
  face_app_get frame = Raise e ->
  faces_step now frame events (s, log) =
    (Raise e, (set_last_face_check_time now s, log ++ [FaceAppGet])).
Proof.
  intros Hg Hf. apply Qle_bool_iff in Hg.
  unfold face_detection. monad_unfold. now rewrite Hg, Hf.
Qed.

(** Section 1 appends events of its own three kinds only. *)
Lemma face_detection_kinds now frame events w ev w' k :
  faces_step now frame events w = (Return ev, w') ->
  k = "PHONE_DETECTED"%string \/ k = "LOOKING_AWAY"%string \/ k = "ERROR"%string ->
  existsb (kind_is k) ev = existsb (kind_is k) events.
Proof.
  destruct w as [s log]. unfold face_detection. monad_unfold. intros H Hk.
  repeat break_match; inv_pair; try reflexivity;
    rewrite existsb_app; simpl;
    destruct Hk as [->|[->| ->]]; simpl; now rewrite !orb_false_r.
Qed.

(** Section 2 when it completes: the timer follows the cached flag. *)
Lemma phone_detection_timer now frame events w ev w' :
  phone_step now frame events w = (Return ev, w') ->
  match last_phone_present (fst w'), phone_presence_start_time (fst w) with
  | true, None =>
      phone_presence_start_time (fst w') = Some now /\ ev = events
  | true, Some start =>
      phone_presence_start_time (fst w') = Some start /\
      ev = if Qle_bool PHONE_ALERT_SECONDS (now - start)
           then events ++ [PHONE_DETECTED now] else events
  | false, _ =>
      phone_presence_start_time (fst w') = None /\ ev = events
  end.
Proof.
  destruct w as [s log]. unfold phone_detection. monad_unfold. intro H.
  repeat break_match; inv_pair; simpl in *; try congruence;
    split; congruence.
Qed.


(** *** Claims about the polling gates and the two timers *)

(** C7 (amended). When less than the face-check interval has elapsed since
    [last_face_check_time] (written by a successful registration and by each
    face refresh; a failed registration invokes the face model without
    writing it), a call to [process_frame] does not invoke the face model,
    leaves [last_faces], [last_authorized] and the check time as they were,
    and decides the frame as sections 2 to 4 do on that unchanged cache;
    symmetrically, under the phone interval since [last_phone_check_time] the
    phone model is not invoked and [last_phone_present] is the flag the frame
    uses.  Both hold whether the call completes or ends in the handler. *)
Theorem gate_closed_reuses_cache now frame_bytes s log :
  let w' := snd (process now frame_bytes (s, log)) in
  (now - last_face_check_time s < FACE_CHECK_INTERVAL ->
     calls_of FaceAppGet (snd w') = calls_of FaceAppGet log /\
     last_faces (fst w') = last_faces s /\
     last_authorized (fst w') = last_authorized s /\
     last_face_check_time (fst w') = last_face_check_time s /\
     forall frame, decode frame_bytes = Some frame ->
       body now frame_bytes (s, log) =
         (events <- phone_step now frame [] ;; distraction_alert now events) (s, log))
  /\
  (now - last_phone_check_time s < PHONE_CHECK_INTERVAL ->
     calls_of PhoneDetectorDetect (snd w') = calls_of PhoneDetectorDetect log /\
     last_phone_present (fst w') = last_phone_present s /\
     last_phone_check_time (fst w') = last_phone_check_time s).
Proof.
  intro w'. subst w'.
  destruct (decode frame_bytes) as [frame|] eqn:Hd.
  2:{ rewrite (process_decode_failure _ _ _ Hd). simpl.
      split; intros _; repeat split; intros; discriminate. }
  unfold process_frame.
  destruct (body now frame_bytes (s, log)) as [r w'] eqn:Hb.
  assert (Hw : snd (match r with
                    | Return events => (events, w')
                    | Raise _ => ([ERROR "An internal error occurred."], w')
                    end) = w') by (destruct r; reflexivity).
  rewrite Hw. clear Hw.
  pose proof (body_run_intro _ _ _ _ _ _ Hd Hb) as Hrun.
  split; intro Hgate.
  - assert (Hbody : forall frame0, decode frame_bytes = Some frame0 ->
              (r, w') = (events <- phone_step now frame0 [] ;;
                         distraction_alert now events) (s, log)).
    { intros frame0 Hd0. rewrite <- Hb, (body_decoded _ _ _ _ Hd0).
      unfold bind at 1. now rewrite (face_detection_closed _ _ _ _ _ Hgate). }
    pose proof (face_detection_closed now frame [] s log Hgate) as Hf.
    inversion Hrun; subst;
      match goal with
      | H : faces_step _ _ _ _ = _ |- _ => rewrite Hf in H; inv_pair
      end.
    + match goal with H : phone_step _ _ _ _ = _ |- _ =>
        destruct (phone_detection_frame _ _ _ _ _ _ H) as (_ & ? & ? & ? & _ & ?)
      end. simpl in *. repeat split; auto.
      intros f0 Hf0. apply Hbody. congruence.
    + match goal with H : phone_step _ _ _ _ = _ |- _ =>
        destruct (phone_detection_frame _ _ _ _ _ _ H) as (_ & ? & ? & ? & _ & ?)
      end.
      match goal with H : distraction_alert _ _ _ = _ |- _ =>
        destruct (distraction_alert_frame _ _ _ _ _ H)
          as (_ & Hl & _ & ? & ? & ? & _)
      end. simpl in *. rewrite Hl. repeat split; try congruence.
      intros f0 Hf0. apply Hbody. congruence.
  - apply Qle_bool_false_iff in Hgate.
    assert (Hp : forall ev w1 r2 w2,
               last_phone_check_time (fst w1) = last_phone_check_time s ->
               phone_step now frame ev w1 = (r2, w2) ->
               calls_of PhoneDetectorDetect (snd w2)
                 = calls_of PhoneDetectorDetect (snd w1) /\
               last_phone_present (fst w2) = last_phone_present (fst w1) /\
               last_phone_check_time (fst w2) = last_phone_check_time (fst w1)).
    { intros ev [s1 log1] r2 w2 Ht. simpl in Ht.
      unfold phone_detection. monad_unfold. rewrite Ht, Hgate. intro H.
      repeat break_match; inv_pair; simpl; repeat split; auto. }
    inversion Hrun; subst.
    + match goal with H : faces_step _ _ _ _ = _ |- _ =>
        destruct (face_detection_frame _ _ _ _ _ _ H) as (_ & ? & ? & _ & _ & ?)
      end. simpl in *. repeat split; auto.
    + match goal with H : faces_step _ _ _ _ = _ |- _ =>
        destruct (face_detection_frame _ _ _ _ _ _ H) as (_ & Ht & ? & _ & _ & ?)
      end.
      match goal with H : phone_step _ _ _ _ = _ |- _ =>
        destruct (Hp _ _ _ _ Ht H) as (? & ? & ?)
      end. simpl in *. repeat split; congruence.
    + match goal with H : faces_step _ _ _ _ = _ |- _ =>
        destruct (face_detection_frame _ _ _ _ _ _ H) as (_ & Ht & ? & _ & _ & ?)
      end.
      match goal with H : phone_step _ _ _ _ = _ |- _ =>
        destruct (Hp _ _ _ _ Ht H) as (? & ? & ?)
      end.
      match goal with H : distraction_alert _ _ _ = _ |- _ =>
        destruct (distraction_alert_frame _ _ _ _ _ H)
          as (_ & Hl & _ & _ & _ & _ & ? & ? & _)
      end. simpl in *. rewrite Hl. repeat split; congruence.
Qed.


Lemma distraction_alert_kinds now events w ev w' k :
  distraction_alert now events w = (Return ev, w') ->
  k = "PHONE_DETECTED"%string \/ k = "ERROR"%string ->
  existsb (kind_is k) ev = existsb (kind_is k) events.
Proof.
  destruct w as [s log]. unfold distraction_alert. monad_unfold. intros H Hk.
  repeat break_match; inv_pair; try reflexivity;
    rewrite existsb_app; simpl;
    destruct Hk as [->| ->]; simpl; now rewrite !orb_false_r.
Qed.

(** Each section keeps the events it was handed. *)
Lemma phone_detection_keeps now frame events w ev w' e :
  phone_step now frame events w = (Return ev, w') -> In e events -> In e ev.
Proof.
  destruct w as [s log]. unfold phone_detection. monad_unfold. intros H Hin.
  repeat break_match; inv_pair; auto; apply in_or_app; auto.
Qed.

Lemma distraction_alert_keeps now events w ev w' e :
  distraction_alert now events w = (Return ev, w') -> In e events -> In e ev.
Proof.
  destruct w as [s log]. unfold distraction_alert. monad_unfold. intros H Hin.
  repeat break_match; inv_pair; auto; apply in_or_app; auto.
Qed.

(** A call that returns no [ERROR] event decoded its frame and ran the body
    to the end. *)
Lemma process_without_error now frame_bytes w events w' :
  process now frame_bytes w = (events, w') ->
  existsb (kind_is "ERROR") events = false ->
  exists frame ev1 w1 ev2 w2,
    decode frame_bytes = Some frame /\
    faces_step now frame [] w = (Return ev1, w1) /\
    phone_step now frame ev1 w1 = (Return ev2, w2) /\
    distraction_alert now ev2 w2 = (Return events, w').
Proof.
  intros H Hok.
  destruct (decode frame_bytes) as [frame|] eqn:Hd.
  2:{ rewrite (process_decode_failure _ _ _ Hd) in H. inv_pair. discriminate. }
  unfold process_frame in H.
  destruct (body now frame_bytes w) as [r w0] eqn:Hb.
  pose proof (body_run_intro _ _ _ _ _ _ Hd Hb) as Hrun.
  inversion Hrun; subst; inv_pair; try discriminate.
  exists frame, ev1, w1, ev2, w2. auto.
Qed.

(** C3 (amended). Phone hysteresis, on a frame processed without an
    exception (the call returns no [ERROR] event), with the cached phone flag
    the frame uses ([last_phone_present] after the call): flag present and
    no start time recorded: the start time becomes [now] and no
    [PHONE_DETECTED] is returned; flag present and a start time recorded: the
    start time is kept and [PHONE_DETECTED] is returned exactly when
    [now - start >= PHONE_ALERT_SECONDS], on every such frame; flag absent:
    the start time is reset to [None]. *)
Theorem phone_hysteresis now frame_bytes w events w' :
  process now frame_bytes w = (events, w') ->
  existsb (kind_is "ERROR") events = false ->
  (last_phone_present (fst w') = true ->
   phone_presence_start_time (fst w) = None ->
     phone_presence_start_time (fst w') = Some now /\
     existsb (kind_is "PHONE_DETECTED") events = false) /\
  (last_phone_present (fst w') = true ->
   forall start, phone_presence_start_time (fst w) = Some start ->
     phone_presence_start_time (fst w') = Some start /\
     (PHONE_ALERT_SECONDS <= now - start -> In (PHONE_DETECTED now) events) /\
     (now - start < PHONE_ALERT_SECONDS ->
        existsb (kind_is "PHONE_DETECTED") events = false)) /\
  (last_phone_present (fst w') = false ->
     phone_presence_start_time (fst w') = None).
Proof.
  intros H Hok.
  destruct (process_without_error _ _ _ _ _ H Hok)
    as (frame & ev1 & w1 & ev2 & w2 & Hd & H1 & H2 & H3).
  destruct (face_detection_frame _ _ _ _ _ _ H1) as (_ & _ & _ & Hs1 & _).
  pose proof (face_detection_kinds _ _ _ _ _ _ "PHONE_DETECTED" H1
                (or_introl eq_refl)) as Hk1. simpl in Hk1.
  pose proof (phone_detection_timer _ _ _ _ _ _ H2) as Ht.
  destruct (distraction_alert_frame _ _ _ _ _ H3)
    as (_ & _ & _ & _ & _ & _ & _ & Hp3 & Hs3).
  pose proof (distraction_alert_kinds _ _ _ _ _ "PHONE_DETECTED" H3
                (or_introl eq_refl)) as Hk3.
  rewrite Hp3, Hs3, Hk3. rewrite Hs1 in Ht.
  split; [|split].
  - intros Hp Hs. rewrite Hp, Hs in Ht. destruct Ht as [? ->]. auto.
  - intros Hp start Hs. rewrite Hp, Hs in Ht. destruct Ht as [? Hev].
    split; [assumption|split].
    + intro Hle. apply Qle_bool_iff in Hle. rewrite Hle in Hev.
      apply (distraction_alert_keeps _ _ _ _ _ _ H3).
      rewrite Hev. apply in_or_app. right. now left.
    + intro Hlt. apply Qle_bool_false_iff in Hlt. rewrite Hlt in Hev.
      now rewrite Hev.
  - intro Hp. rewrite Hp in Ht. tauto.
Qed.


(** Section 2 raises exactly when the phone model is invoked and raises. *)
Lemma phone_detection_raises now frame events s log e w' :
  phone_step now frame events (s, log) = (Raise e, w') ->
  phone_model_fails now frame s.
Proof.
  unfold phone_detection, phone_model_fails. monad_unfold. intro H.
  repeat break_match; inv_pair.
  split; [now apply Qle_bool_iff | eauto].
Qed.

Lemma phone_detection_fails now frame events s log :
  phone_model_fails now frame s ->
  exists e, phone_step now frame events (s, log) =
    (Raise e, (set_last_phone_check_time now s, log ++ [PhoneDetectorDetect])).
Proof.
  intros [Hg [e He]]. apply Qle_bool_iff in Hg. exists e.
  unfold phone_detection. monad_unfold. now rewrite Hg, He.
Qed.

(** *** Claims about the face refresh *)

(** What a call returns once section 1 has completed with events [ev1] in
    world [w1]: either the phone model fails and the call is an [ERROR], or
    every event of [ev1] is returned; the face fields are those of [w1]. *)
Lemma after_face_detection now frame_bytes frame w ev1 w1 :
  decode frame_bytes = Some frame ->
  faces_step now frame [] w = (Return ev1, w1) ->
  let out := process now frame_bytes w in
  last_faces (fst (snd out)) = last_faces (fst w1) /\
  last_authorized (fst (snd out)) = last_authorized (fst w1) /\
  last_face_check_time (fst (snd out)) = last_face_check_time (fst w1) /\
  (phone_model_fails now frame (fst w) ->
     fst out = [ERROR "An internal error occurred."]) /\
  (~ phone_model_fails now frame (fst w) ->
     (forall e, In e ev1 -> In e (fst out)) /\
     (forall k, k = "FACE_NOT_FOUND"%string \/ k = "MULTIPLE_FACES"%string \/
                k = "UNAUTHORIZED_PERSON"%string ->
        existsb (kind_is k) (fst out) = existsb (kind_is k) ev1)).
Proof.
  intros Hd H1 out. subst out.
  destruct (face_detection_frame _ _ _ _ _ _ H1) as (_ & Hpt & _).
  assert (Hproc : process now frame_bytes w =
            match phone_step now frame ev1 w1 with
            | (Return ev2, w2) =>
                match distraction_alert now ev2 w2 with
                | (Return ev3, w3) => (ev3, w3)
                | (Raise _, w3) => ([ERROR "An internal error occurred."], w3)
                end
            | (Raise _, w2) => ([ERROR "An internal error occurred."], w2)
            end).
  { unfold process_frame. rewrite (body_decoded _ _ _ _ Hd).
    unfold bind. rewrite H1.
    destruct (phone_step now frame ev1 w1) as [[ev2|e] w2]; reflexivity. }
  rewrite Hproc. clear Hproc.
  destruct w as [s log]. destruct w1 as [s1 log1]. simpl in *.
  assert (Hfail : phone_model_fails now frame s1 <-> phone_model_fails now frame s).
  { unfold phone_model_fails. now rewrite Hpt. }
  destruct (phone_step now frame ev1 (s1, log1)) as [[ev2|e] w2] eqn:H2.
  - destruct (phone_detection_frame _ _ _ _ _ _ H2) as (_ & Ha & Hb & Hc & _).
    destruct (distraction_alert now ev2 w2) as [r3 w3] eqn:H3.
    destruct (distraction_alert_frame _ _ _ _ _ H3)
      as ([ev3 ->] & _ & _ & Ha' & Hb' & Hc' & _).
    simpl in *.
    split; [congruence|split; [congruence|split; [congruence|split]]].
    + intro Hf. apply Hfail in Hf.
      destruct (phone_detection_fails now frame ev1 s1 log1 Hf) as [e He].
      congruence.
    + intros _. split.
      { intros e Hin. eapply distraction_alert_keeps; eauto.
        eapply phone_detection_keeps; eauto. }
      intros k Hk.
      assert (Hk2 : existsb (kind_is k) ev2 = existsb (kind_is k) ev1).
      { clear H3. revert H2. unfold phone_detection. monad_unfold. intro H2.
        repeat break_match; inv_pair; try reflexivity;
          rewrite existsb_app; simpl;
          destruct Hk as [->|[->| ->]]; simpl; now rewrite !orb_false_r. }
      rewrite <- Hk2. clear H2. revert H3.
      unfold distraction_alert. monad_unfold. intro H3.
      repeat break_match; inv_pair; try reflexivity;
        rewrite existsb_app; simpl;
        destruct Hk as [->|[->| ->]]; simpl; now rewrite !orb_false_r.
  - destruct (phone_detection_frame _ _ _ _ _ _ H2) as (_ & Ha & Hb & Hc & _).
    simpl in *.
    split; [congruence|split; [congruence|split; [congruence|split]]];
      [reflexivity|].
    intro Hn. exfalso. apply Hn, Hfail.
    eapply phone_detection_raises; eauto.
Qed.

(** C6 (amended). On a frame whose face refresh runs and yields a number of
    faces other than one, [last_faces] is replaced by the new list and
    [last_authorized] becomes [False]; when the phone model does not fail
    later in the call, [FACE_NOT_FOUND] (zero faces) or [MULTIPLE_FACES] with
    the exact count (more than one) is returned; when it fails, the call
    returns the single [ERROR] event instead. *)
Theorem face_count_refresh now frame_bytes frame s log faces :
  decode frame_bytes = Some frame ->
  FACE_CHECK_INTERVAL <= now - last_face_check_time s ->
  face_app_get frame = Return faces ->
  List.length faces <> 1%nat ->
  let out := process now frame_bytes (s, log) in
  last_faces (fst (snd out)) = faces /\
  last_authorized (fst (snd out)) = false /\
  (phone_model_fails now frame s ->
     fst out = [ERROR "An internal error occurred."]) /\
  (~ phone_model_fails now frame s ->
     (faces = [] -> In (FACE_NOT_FOUND now) (fst out)) /\
     ((1 < List.length faces)%nat ->
        In (MULTIPLE_FACES (List.length faces) now) (fst out))).
Proof.
  intros Hd Hg Hf Hlen out.
  pose proof (face_detection_open now frame [] s log faces Hg Hf) as H1.
  simpl in H1.
  destruct faces as [|f [|f' fs]]; [| exfalso; now apply Hlen |];
    destruct (after_face_detection _ _ _ _ _ _ Hd H1)
      as (Hlf & Hla & _ & Hfail & Hok);
    fold out in Hlf, Hla, Hfail, Hok; simpl in *;
    (split; [exact Hlf|split; [exact Hla|split; [exact Hfail|]]]);
    intro Hn; destruct (Hok Hn) as [Hin _]; split; intro Hc;
    try discriminate; try (exfalso; lia); apply Hin; now left.
Qed.


(** C10. Before any registration ([ref_embedding] is [None]), a frame whose
    face refresh runs and yields exactly one face makes [process_frame]
    return the single [ERROR] event: the similarity expression raises, no
    authorization decision is made ([last_authorized] keeps its value), and
    only the face model was invoked. *)
Theorem unregistered_single_face now frame_bytes frame s log f :
  ref_embedding s = None ->
  decode frame_bytes = Some frame ->
  FACE_CHECK_INTERVAL <= now - last_face_check_time s ->
  face_app_get frame = Return [f] ->
  process now frame_bytes (s, log) =
    ([ERROR "An internal error occurred."],
     (set_last_faces [f] (set_last_face_check_time now s), log ++ [FaceAppGet])) /\
  last_authorized (fst (snd (process now frame_bytes (s, log)))) = last_authorized s.
Proof.
  intros Href Hd Hg Hf.
  pose proof (face_detection_open now frame [] s log [f] Hg Hf) as H1.
  simpl in H1. rewrite Href in H1. simpl in H1.
  assert (Hp : process now frame_bytes (s, log) =
            ([ERROR "An internal error occurred."],
             (set_last_faces [f] (set_last_face_check_time now s),
              log ++ [FaceAppGet]))).
  { unfold process_frame. rewrite (body_decoded _ _ _ _ Hd).
    unfold bind. now rewrite H1. }
  rewrite Hp. split; reflexivity.
Qed.

(** *** Claims about errors, events and registration *)

(** C2 (amended). A call whose frame fails to decode returns exactly one
    [ERROR] event and leaves the whole session (and the call log) unchanged.
    A call in which an exception is raised returns exactly one [ERROR] event
    and keeps the state reached when it was raised: the reference embedding,
    the cached phone flag and both hysteresis start times are unchanged,
    while what was assigned before the exception stays assigned: a failing
    face model leaves [last_face_check_time] set to [now], a failing phone
    model leaves [last_phone_check_time] set to [now] on top of what the
    face refresh assigned. *)
Theorem error_event_and_state now frame_bytes w :
  (decode frame_bytes = None ->
     process now frame_bytes w = ([ERROR "Invalid frame data."], w)) /\
  (forall e w', body now frame_bytes w = (Raise e, w') ->
     process now frame_bytes w = ([ERROR "An internal error occurred."], w') /\
     ref_embedding (fst w') = ref_embedding (fst w) /\
     last_phone_present (fst w') = last_phone_present (fst w) /\
     phone_presence_start_time (fst w') = phone_presence_start_time (fst w) /\
     distracted_start_time (fst w') = distracted_start_time (fst w)) /\
  (forall frame e,
     decode frame_bytes = Some frame ->
     FACE_CHECK_INTERVAL <= now - last_face_check_time (fst w) ->
     face_app_get frame = Raise e ->
     process now frame_bytes w =
       ([ERROR "An internal error occurred."],
        (set_last_face_check_time now (fst w), snd w ++ [FaceAppGet]))) /\
  (forall frame ev1 s1 log1,
     decode frame_bytes = Some frame ->
     faces_step now frame [] w = (Return ev1, (s1, log1)) ->
     phone_model_fails now frame s1 ->
     process now frame_bytes w =
       ([ERROR "An internal error occurred."],
        (set_last_phone_check_time now s1, log1 ++ [PhoneDetectorDetect]))).
Proof.
  split; [apply process_decode_failure|split; [|split]].
  - intros e w' Hb. split; [unfold process_frame; now rewrite Hb|].
    destruct (decode frame_bytes) as [frame|] eqn:Hd.
    2:{ unfold process_frame_body in Hb. rewrite Hd in Hb. discriminate. }
    pose proof (body_run_intro _ _ _ _ _ _ Hd Hb) as Hrun.
    inversion Hrun; subst.
    + match goal with H : faces_step _ _ _ _ = _ |- _ =>
        destruct (face_detection_frame _ _ _ _ _ _ H) as (? & _ & ? & ? & ? & _)
      end. auto.
    + match goal with H : faces_step _ _ _ _ = _ |- _ =>
        destruct (face_detection_frame _ _ _ _ _ _ H)
          as (Hr1 & _ & Hp1 & Hs1 & Hd1 & _)
      end.
      match goal with H : phone_step _ _ _ _ = _ |- _ =>
        destruct (phone_detection_frame _ _ _ _ _ _ H) as (Hr2 & _ & _ & _ & Hd2 & _);
        revert H
      end.
      destruct w1 as [s1 log1]. unfold phone_detection. monad_unfold. intro H.
      repeat break_match; inv_pair; simpl in *; repeat split; congruence.
  - intros frame e Hd Hg Hf. destruct w as [s log]. simpl in *.
    unfold process_frame. rewrite (body_decoded _ _ _ _ Hd). unfold bind.
    now rewrite (face_detection_raises _ _ _ _ _ _ Hg Hf).
  - intros frame ev1 s1 log1 Hd H1 Hfail.
    destruct (phone_detection_fails now frame ev1 s1 log1 Hfail) as [e He].
    unfold process_frame. rewrite (body_decoded _ _ _ _ Hd). unfold bind.
    now rewrite H1, He.
Qed.

Lemma Forall_snoc {A} (P : A -> Prop) l x :
  Forall P l -> P x -> Forall P (l ++ [x]).
Proof. intros Hl Hx. apply Forall_app. split; [assumption|]. now constructor. Qed.

Lemma face_detection_events now frame events w ev w' :
  faces_step now frame events w = (Return ev, w') ->
  Forall (frame_event now) events -> Forall (frame_event now) ev.
Proof.
  destruct w as [s log]. unfold face_detection. monad_unfold. intros H Hall.
  repeat break_match; inv_pair; auto; apply Forall_snoc; auto; constructor.
Qed.

Lemma phone_detection_events now frame events w ev w' :
  phone_step now frame events w = (Return ev, w') ->
  Forall (frame_event now) events -> Forall (frame_event now) ev.
Proof.
  destruct w as [s log]. unfold phone_detection. monad_unfold. intros H Hall.
  repeat break_match; inv_pair; auto; apply Forall_snoc; auto; constructor.
Qed.

Lemma distraction_alert_events now events w ev w' :
  distraction_alert now events w = (Return ev, w') ->
  Forall (frame_event now) events -> Forall (frame_event now) ev.
Proof.
  destruct w as [s log]. unfold distraction_alert. monad_unfold. intros H Hall.
  repeat break_match; inv_pair; auto; apply Forall_snoc; auto; constructor.
Qed.

(** Every returned event is one of the two [ERROR] records or an event of
    the frame. *)
Lemma process_events now frame_bytes w e :
  In e (fst (process now frame_bytes w)) ->
  e = ERROR "Invalid frame data." \/
  e = ERROR "An internal error occurred." \/
  frame_event now e.
Proof.
  destruct (decode frame_bytes) as [frame|] eqn:Hd.
  2:{ rewrite (process_decode_failure _ _ _ Hd). simpl. intuition. }
  unfold process_frame.
  destruct (body now frame_bytes w) as [r w'] eqn:Hb.
  pose proof (body_run_intro _ _ _ _ _ _ Hd Hb) as Hrun.
  inversion Hrun; subst; simpl; try (intuition; fail).
  intro Hin. right. right.
  assert (Hall : Forall (frame_event now) ev3).
  { eapply distraction_alert_events; eauto.
    eapply phone_detection_events; eauto.
    eapply face_detection_events; eauto. }
  rewrite Forall_forall in Hall. auto.
Qed.

(** C9 (amended). Every event returned by [process_frame] other than an
    [ERROR] event is one of the five records of the frame, with its kind, its
    payload and a timestamp field equal to [now]; an [ERROR] event is one of
    the two records made of a kind and a message, and has no timestamp
    field. *)
Theorem event_fields now frame_bytes w e :
  In e (fst (process now frame_bytes w)) ->
  (kind_is "ERROR" e = true /\
   (e = ERROR "Invalid frame data." \/ e = ERROR "An internal error occurred.") /\
   dict_get "timestamp" e = None)
  \/
  (kind_is "ERROR" e = false /\
   frame_event now e /\
   dict_get "timestamp" e = Some (VFloat now)).
Proof.
  intro Hin.
  destruct (process_events _ _ _ _ Hin) as [->|[->|Hfe]].
  - left. simpl. auto.
  - left. simpl. auto.
  - right. destruct Hfe; simpl; repeat split; constructor.
Qed.

(** [process_frame] never writes the reference embedding. *)
Lemma process_keeps_reference now frame_bytes w :
  ref_embedding (fst (snd (process now frame_bytes w))) = ref_embedding (fst w).
Proof.
  destruct (decode frame_bytes) as [frame|] eqn:Hd.
  2:{ now rewrite (process_decode_failure _ _ _ Hd). }
  unfold process_frame.
  destruct (body now frame_bytes w) as [r w'] eqn:Hb.
  pose proof (body_run_intro _ _ _ _ _ _ Hd Hb) as Hrun.
  inversion Hrun; subst; simpl;
    repeat match goal with
      | H : faces_step _ _ _ _ = _ |- _ =>
          destruct (face_detection_frame _ _ _ _ _ _ H) as (? & _); clear H
      | H : phone_step _ _ _ _ = _ |- _ =>
          destruct (phone_detection_frame _ _ _ _ _ _ H) as (? & _); clear H
      | H : distraction_alert _ _ _ = _ |- _ =>
          destruct (distraction_alert_frame _ _ _ _ _ H) as (_ & _ & ? & _);
          clear H
      end; congruence.
Qed.

(** C5. On a session whose reference embedding is set, [register] returns
    [(False, "User is already registered.")] and leaves the session and the
    call log as they were (no model is invoked); hence over any sequence of
    [register] and [process_frame] calls the reference embedding, once set,
    keeps its value. *)
Theorem register_once w r :
  ref_embedding (fst w) = Some r ->
  (forall now frame_bytes,
     register now frame_bytes w =
       ((false, "User is already registered."%string), w)) /\
  (forall ops, ref_embedding (fst (run ops w)) = Some r).
Proof.
  intro Href. split.
  - intros now frame_bytes. unfold register_user_from_frame. now rewrite Href.
  - intro ops. revert w Href. induction ops as [|op ops IH]; intros w Href.
    + exact Href.
    + simpl. apply IH. destruct op as [now fb|now fb]; simpl.
      * unfold register_user_from_frame. now rewrite Href.
      * now rewrite process_keeps_reference.
Qed.

End Properties.

(** *** The attention formula *)

Lemma py_min_le_l a b : py_min a b <= a.
Proof.
  unfold py_min. destruct (Qlt_bool b a) eqn:E.
  - apply Qlt_bool_iff in E. now apply Qlt_le_weak.
  - apply Qle_refl.
Qed.

Lemma attention_of_le_100 h p :
  p == 0 \/ p == 1 -> attention_of h 1.0 p <= 100.
Proof.
  intro Hp. unfold attention_of.
  destruct (Qlt_bool 0.8 h) eqn:E; [apply py_min_le_l|].
  assert (Hh : h <= 0.8).
  { destruct (Qle_bool h 0.8) eqn:E'; [now apply Qle_bool_iff|].
    unfold Qlt_bool in E. rewrite E' in E. discriminate. }
  unfold W_FACE, W_HEAD, W_PHONE.
  assert (Hw : 0.40 + 0.50 + 0.10 == 1) by reflexivity.
  assert (Hone : / 1 == 1) by reflexivity.
  rewrite Hw. unfold Qdiv. rewrite Hone.
  destruct Hp as [-> | ->]; lra.
Qed.

(** C8. With exactly one cached, authorized face whose head score is 1 and
    no phone, the attention score is exactly 100; the attention score never
    exceeds 100, whatever the cached faces and flags; and it is 0 unless
    there is exactly one cached face and the person is authorized. *)
Theorem attention_bounds :
  (forall h, h == 1 -> attention_of h 1.0 0.0 = 100) /\
  (forall f, _compute_head_score f == 1 ->
     attention_score [f] true false = 100) /\
  (forall faces authorized phone_present,
     attention_score faces authorized phone_present <= 100) /\
  (forall faces authorized phone_present,
     ~ (List.length faces = 1%nat /\ authorized = true) ->
     attention_score faces authorized phone_present = 0.0).
Proof.
  assert (H100 : forall h, h == 1 -> attention_of h 1.0 0.0 = 100).
  { intros h Hh. unfold attention_of, py_min.
    assert (E : Qlt_bool 0.8 h = true) by (apply Qlt_bool_iff; rewrite Hh; lra).
    rewrite E.
    match goal with |- (if ?c then _ else _) = _ => destruct c eqn:E' end;
      [|reflexivity].
    exfalso. apply Qlt_bool_iff in E'. revert E'.
    unfold W_FACE, W_HEAD, W_PHONE.
    assert (Hw : 0.40 + 0.50 + 0.10 == 1) by reflexivity.
    assert (Hone : / 1 == 1) by reflexivity.
    rewrite Hw. unfold Qdiv. rewrite Hone, Hh. lra. }
  split; [exact H100|split; [|split]].
  - intros f Hf. unfold attention_score. simpl. now apply H100.
  - intros faces authorized phone_present. unfold attention_score.
    destruct faces as [|f [|f' fs]]; simpl; try lra.
    destruct authorized; simpl; try lra.
    apply attention_of_le_100. destruct phone_present; [right|left]; lra.
  - intros faces authorized phone_present Hn. unfold attention_score.
    destruct faces as [|f [|f' fs]]; simpl; try reflexivity.
    destruct authorized; simpl; try reflexivity.
    exfalso. apply Hn. split; reflexivity.
Qed.

(** * The theorems on concrete inputs *)

Ltac qcmp :=
  first [ reflexivity
        | apply Qle_bool_iff; reflexivity
        | apply Qlt_bool_iff; reflexivity ].



(** C6, as stated, fails: the face refresh yields no face, the phone model
    then raises, and the call returns the single [ERROR] event, without any
    [FACE_NOT_FOUND] event. *)
Lemma face_not_found_lost :
  _decode_frame stub_imdecode (frame Byte.x00 Byte.x02)
    = Some (frame Byte.x00 Byte.x02) /\
  FACE_CHECK_INTERVAL <= 105 - last_face_check_time registered /\
  stub_face_get (frame Byte.x00 Byte.x02) = Return [] /\
  fst (stub_process_frame 105 (frame Byte.x00 Byte.x02) (registered, []))
    = [ERROR "An internal error occurred."] /\
  existsb (kind_is "FACE_NOT_FOUND")
    (fst (stub_process_frame 105 (frame Byte.x00 Byte.x02) (registered, [])))
    = false.
Proof. repeat split; qcmp. Qed.

Lemma face_count_refresh_witness :
  In (FACE_NOT_FOUND 105)
    (fst (stub_process_frame 105 (frame Byte.x00 Byte.x00) (registered, []))) /\
  In (MULTIPLE_FACES 2 105)
    (fst (stub_process_frame 105 (frame Byte.x02 Byte.x00) (registered, []))) /\
  last_authorized
    (fst (snd (stub_process_frame 105 (frame Byte.x02 Byte.x00) (registered, []))))
    = false.
Proof.
  assert (Hg : FACE_CHECK_INTERVAL <= 105 - last_face_check_time registered)
    by qcmp.
  assert (Hl0 : List.length (@nil Face) <> 1%nat) by discriminate.
  assert (Hl2 : List.length [face_front; face_other] <> 1%nat) by discriminate.
  destruct (face_count_refresh _ stub_imdecode stub_face_get stub_phone_detect
              stub_norm 105 (frame Byte.x00 Byte.x00) (frame Byte.x00 Byte.x00)
              registered [] [] eq_refl Hg eq_refl Hl0)
    as (_ & _ & _ & Hok0).
  destruct (face_count_refresh _ stub_imdecode stub_face_get stub_phone_detect
              stub_norm 105 (frame Byte.x02 Byte.x00) (frame Byte.x02 Byte.x00)
              registered [] [face_front; face_other] eq_refl Hg eq_refl Hl2)
    as (_ & Ha2 & _ & Hok2).
  split; [|split].
  - apply Hok0; [|reflexivity]. intros [_ [e He]]. discriminate He.
  - apply Hok2; [|simpl; lia]. intros [_ [e He]]. discriminate He.
  - exact Ha2.
Defined.

(** C2, as stated, fails: the face model raises, the call returns the
    single [ERROR] event, and [last_face_check_time] has moved from 100 to
    105. *)
Lemma error_keeps_partial_update :
  _decode_frame stub_imdecode (frame Byte.x05 Byte.x00)
    = Some (frame Byte.x05 Byte.x00) /\
  stub_face_get (frame Byte.x05 Byte.x00)
    = Raise (CollaboratorError "face model") /\
  fst (stub_process_frame 105 (frame Byte.x05 Byte.x00) (registered, []))
    = [ERROR "An internal error occurred."] /\
  last_face_check_time registered == 100 /\
  last_face_check_time
    (fst (snd (stub_process_frame 105 (frame Byte.x05 Byte.x00) (registered, []))))
    == 105 /\
  fst (snd (stub_process_frame 105 (frame Byte.x05 Byte.x00) (registered, [])))
    <> registered.
Proof.
  repeat split; try qcmp. intro H.
  apply (f_equal last_face_check_time) in H. discriminate H.
Qed.

Lemma error_event_and_state_witness :
  stub_process_frame 105 [] (registered, [])
    = ([ERROR "Invalid frame data."], (registered, [])) /\
  stub_process_frame 105 (frame Byte.x05 Byte.x00) (registered, [])
    = ([ERROR "An internal error occurred."],
       (set_last_face_check_time 105 registered, [FaceAppGet])).
Proof.
  destruct (error_event_and_state _ stub_imdecode stub_face_get stub_phone_detect
              stub_norm 105 [] (registered, [])) as (Hdec & _).
  destruct (error_event_and_state _ stub_imdecode stub_face_get stub_phone_detect
              stub_norm 105 (frame Byte.x05 Byte.x00) (registered, []))
    as (_ & _ & Hface & _).
  split.
  - apply Hdec. reflexivity.
  - apply (Hface (frame Byte.x05 Byte.x00) (CollaboratorError "face model"));
      qcmp.
Defined.

Lemma phone_hysteresis_witness :
  (phone_presence_start_time
     (fst (snd (stub_process_frame 101 (frame Byte.x01 Byte.x01)
                  (set_last_phone_present true registered, []))))
     = Some 101 /\
   existsb (kind_is "PHONE_DETECTED")
     (fst (stub_process_frame 101 (frame Byte.x01 Byte.x01)
             (set_last_phone_present true registered, []))) = false) /\
  In (PHONE_DETECTED 101.5)
    (fst (stub_process_frame 101.5 (frame Byte.x01 Byte.x01) (phone_armed, []))) /\
  existsb (kind_is "PHONE_DETECTED")
    (fst (stub_process_frame 100.5 (frame Byte.x01 Byte.x01) (phone_armed, [])))
    = false /\
  phone_presence_start_time
    (fst (snd (stub_process_frame 103 (frame Byte.x01 Byte.x00) (phone_armed, []))))
    = None.
Proof.
  destruct (phone_hysteresis _ stub_imdecode stub_face_get stub_phone_detect
              stub_norm 101 (frame Byte.x01 Byte.x01)
              (set_last_phone_present true registered, []) _ _ eq_refl eq_refl)
    as (Harm & _ & _).
  destruct (phone_hysteresis _ stub_imdecode stub_face_get stub_phone_detect
              stub_norm 101.5 (frame Byte.x01 Byte.x01) (phone_armed, [])
              _ _ eq_refl eq_refl) as (_ & Halert & _).
  destruct (phone_hysteresis _ stub_imdecode stub_face_get stub_phone_detect
              stub_norm 100.5 (frame Byte.x01 Byte.x01) (phone_armed, [])
              _ _ eq_refl eq_refl) as (_ & Hquiet & _).
  destruct (phone_hysteresis _ stub_imdecode stub_face_get stub_phone_detect
              stub_norm 103 (frame Byte.x01 Byte.x00) (phone_armed, [])
              _ _ eq_refl eq_refl) as (_ & _ & Hreset).
  split; [|split; [|split]].
  - apply Harm; reflexivity.
  - apply (Halert eq_refl 100 eq_refl). qcmp.
  - apply (Hquiet eq_refl 100 eq_refl). qcmp.
  - apply Hreset. reflexivity.
Defined.

Lemma register_once_witness :
  stub_register 200 (frame Byte.x03 Byte.x00) (registered, [])
    = ((false, "User is already registered."%string), (registered, [])) /\
  ref_embedding
    (fst (run stub_imdecode stub_face_get stub_phone_detect stub_norm
            [OpRegister 200 (frame Byte.x03 Byte.x00);
             OpProcessFrame 205 (frame Byte.x03 Byte.x00);
             OpRegister 210 (frame Byte.x03 Byte.x00)]
            (registered, [])))
    = Some [1; 0; 0; 0].
Proof.
  destruct (register_once _ stub_imdecode stub_face_get stub_phone_detect
              stub_norm (registered, []) [1; 0; 0; 0] eq_refl) as (Hreg & Hrun).
  split; [apply Hreg | apply Hrun].
Defined.

(** C9, as stated, fails: a frame that does not decode returns an [ERROR]
    event, and that record has no timestamp field. *)
Lemma error_event_without_timestamp :
  fst (stub_process_frame 105 [] (registered, []))
    = [ERROR "Invalid frame data."] /\
  dict_get "timestamp" (ERROR "Invalid frame data.") = None /\
  fst (stub_process_frame 105 (frame Byte.x05 Byte.x00) (registered, []))
    = [ERROR "An internal error occurred."] /\
  dict_get "timestamp" (ERROR "An internal error occurred.") = None.
Proof. repeat split. Qed.

Lemma event_fields_witness :
  dict_get "timestamp" (UNAUTHORIZED_PERSON (2 # 5) 105) = Some (VFloat 105) /\
  dict_get "timestamp" (ERROR "Invalid frame data.") = None.
Proof.
  assert (Hin : In (UNAUTHORIZED_PERSON (2 # 5) 105)
                  (fst (stub_process_frame 105 (frame Byte.x03 Byte.x00)
                          (registered, [])))) by (left; reflexivity).
  assert (Hin' : In (ERROR "Invalid frame data.")
                   (fst (stub_process_frame 105 [] (registered, []))))
    by (left; reflexivity).
  destruct (event_fields _ stub_imdecode stub_face_get stub_phone_detect
              stub_norm 105 (frame Byte.x03 Byte.x00) (registered, []) _ Hin)
    as [(Hk & _)|(_ & _ & Hts)]; [discriminate Hk|].
  destruct (event_fields _ stub_imdecode stub_face_get stub_phone_detect
              stub_norm 105 [] (registered, []) _ Hin')
    as [(_ & _ & Hno)|(Hk & _)]; [|discriminate Hk].
  split; assumption.
Defined.

Lemma unregistered_single_face_witness :
  stub_process_frame 105 (frame Byte.x01 Byte.x00) (__init__, [])
    = ([ERROR "An internal error occurred."],
       (set_last_faces [face_front] (set_last_face_check_time 105 __init__),
        [FaceAppGet])) /\
  last_authorized
    (fst (snd (stub_process_frame 105 (frame Byte.x01 Byte.x00) (__init__, []))))
    = false.
Proof.
  assert (Hg : FACE_CHECK_INTERVAL <= 105 - last_face_check_time __init__)
    by qcmp.
  exact (unregistered_single_face _ stub_imdecode stub_face_get
           stub_phone_detect stub_norm 105 (frame Byte.x01 Byte.x00)
           (frame Byte.x01 Byte.x00) __init__ [] face_front
           eq_refl eq_refl Hg eq_refl).
Defined.

Lemma gate_closed_reuses_cache_witness :
  calls_of FaceAppGet
    (snd (snd (stub_process_frame 101 (frame Byte.x03 Byte.x01) (registered, []))))
    = 0%nat /\
  last_faces
    (fst (snd (stub_process_frame 101 (frame Byte.x03 Byte.x01) (registered, []))))
    = [face_front] /\
  calls_of PhoneDetectorDetect
    (snd (snd (stub_process_frame 101 (frame Byte.x03 Byte.x01) (registered, []))))
    = 0%nat /\
  last_phone_present
    (fst (snd (stub_process_frame 101 (frame Byte.x03 Byte.x01) (registered, []))))
    = false.
Proof.
  destruct (gate_closed_reuses_cache _ stub_imdecode stub_face_get
              stub_phone_detect stub_norm 101 (frame Byte.x03 Byte.x01)
              registered []) as (Hface & Hphone).
  assert (Hf : 101 - last_face_check_time registered < FACE_CHECK_INTERVAL)
    by qcmp.
  assert (Hp : 101 - last_phone_check_time registered < PHONE_CHECK_INTERVAL)
    by qcmp.
  destruct (Hface Hf) as (Hc & Hl & _).
  destruct (Hphone Hp) as (Hc' & Hl' & _).
  repeat split; assumption.
Defined.

Lemma attention_bounds_witness :
  attention_score [face_front] true false = 100 /\
  attention_score [face_front; face_other] true false = 0.0 /\
  attention_score [face_away] true true <= 100.
Proof.
  destruct attention_bounds as (_ & Hfull & Hcap & Hzero).
  split; [|split].
  - apply Hfull. qcmp.
  - apply Hzero. intros [Hlen _]. discriminate Hlen.
  - apply Hcap.
Defined.

(** * Further properties of the scorers *)

Lemma py_max_ge_l a b : a <= py_max a b.
Proof.
  unfold py_max. destruct (Qlt_bool a b) eqn:E.
  - apply Qlt_bool_iff in E. now apply Qlt_le_weak.
  - apply Qle_refl.
Qed.

Lemma py_max_le a b c : a <= c -> b <= c -> py_max a b <= c.
Proof. intros. unfold py_max. now destruct (Qlt_bool a b). Qed.

Lemma py_min_ge a b c : c <= a -> c <= b -> c <= py_min a b.
Proof. intros. unfold py_min. now destruct (Qlt_bool b a). Qed.

Lemma Qlt_bool_false_iff (a b : Q) : Qlt_bool a b = false <-> b <= a.
Proof.
  unfold Qlt_bool. rewrite negb_false_iff. apply Qle_bool_iff.
Qed.

Lemma Qinv_2 : / 2 == 1 # 2.
Proof. reflexivity. Qed.

Lemma Qinv_2_0 : / 2.0 == 1 # 2.
Proof. reflexivity. Qed.

Ltac qhalves := unfold Qdiv in *; rewrite ?Qinv_2, ?Qinv_2_0 in *.

(** The quotient of an absolute value by a positive constant. *)
Lemma Qabs_div_nonneg x c : 0 < c -> 0 <= Qabs x / c.
Proof.
  intro Hc. apply Qle_shift_div_l; [assumption|].
  rewrite Qmult_0_l. apply Qabs_nonneg.
Qed.

Lemma sub_score_range x c :
  0 < c -> 0 <= py_max 0.0 (1.0 - Qabs x / c) <= 1.
Proof.
  intro Hc. pose proof (Qabs_div_nonneg x c Hc) as Hq. split.
  - apply Qle_trans with 0.0; [lra|apply py_max_ge_l].
  - apply py_max_le; lra.
Qed.



Lemma compute_head_score_offsets f left_eye right_eye nose rest :
  kps f = Some (left_eye :: right_eye :: nose :: rest) ->
  _compute_head_score f =
    head_score_of (nose_center_offset left_eye right_eye nose)
      (vert_offset (bbox f) left_eye right_eye nose).
Proof.
  intro Hk. unfold _compute_head_score, vert_offset. rewrite Hk.
  destruct (bbox f) as [[[x0 y0] x1] y1]. reflexivity.
Qed.

Lemma compute_head_score_cases f :
  _compute_head_score f = 0.0 \/
  exists h v, _compute_head_score f = head_score_of h v.
Proof.
  destruct (kps f) as [[|l [|r [|n rest]]]|] eqn:Hk;
    try (left; unfold _compute_head_score; rewrite Hk; reflexivity).
  right. eexists; eexists. eapply compute_head_score_offsets; eauto.
Qed.

Lemma head_score_of_range h v : 0 <= head_score_of h v <= 1.
Proof.
  unfold head_score_of.
  assert (H35 : 0 < 0.35) by reflexivity.
  assert (H25 : 0 < 0.25) by reflexivity.
  pose proof (sub_score_range h 0.35 H35) as [Hh0 Hh1].
  pose proof (sub_score_range v 0.25 H25) as [Hv0 Hv1].
  set (sh := py_max 0.0 (1.0 - Qabs h / 0.35)) in *.
  set (sv := py_max 0.0 (1.0 - Qabs v / 0.25)) in *.
  assert (Hb : 0 <= (sh + sv) / 2.0 <= 1)
    by (split; unfold Qdiv; rewrite Qinv_2_0; lra).
  destruct Hb as [Hb0 Hb1]. set (b := (sh + sv) / 2.0) in *.
  destruct (Qlt_bool 0.5 (Qabs h) || Qlt_bool 0.4 (Qabs v));
    destruct (Qlt_bool (Qabs h) (0.35 / 2) && Qlt_bool (Qabs v) (0.25 / 2));
    try (split; [apply py_min_ge|eapply Qle_trans; [apply py_min_le_l|]]);
    lra.
Qed.

Lemma head_score_of_centered h v :
  h == 0 -> v == 0 -> head_score_of h v = 1.0.
Proof.
  intros Hh Hv. unfold head_score_of.
  assert (Ah : Qabs h == 0) by (rewrite Hh; reflexivity).
  assert (Av : Qabs v == 0) by (rewrite Hv; reflexivity).
  assert (Sh : py_max 0.0 (1.0 - Qabs h / 0.35) == 1).
  { unfold py_max.
    destruct (Qlt_bool 0.0 (1.0 - Qabs h / 0.35)) eqn:E.
    - rewrite Ah. reflexivity.
    - apply Qlt_bool_false_iff in E. revert E. rewrite Ah. intro E.
      exfalso. revert E. apply Qlt_not_le. reflexivity. }
  assert (Sv : py_max 0.0 (1.0 - Qabs v / 0.25) == 1).
  { unfold py_max.
    destruct (Qlt_bool 0.0 (1.0 - Qabs v / 0.25)) eqn:E.
    - rewrite Av. reflexivity.
    - apply Qlt_bool_false_iff in E. revert E. rewrite Av. intro E.
      exfalso. revert E. apply Qlt_not_le. reflexivity. }
  set (sh := py_max 0.0 (1.0 - Qabs h / 0.35)) in *.
  set (sv := py_max 0.0 (1.0 - Qabs v / 0.25)) in *.
  assert (E1 : Qlt_bool 0.5 (Qabs h) = false)
    by (apply Qlt_bool_false_iff; rewrite Ah; discriminate).
  assert (E2 : Qlt_bool 0.4 (Qabs v) = false)
    by (apply Qlt_bool_false_iff; rewrite Av; discriminate).
  assert (E3 : Qlt_bool (Qabs h) (0.35 / 2) = true)
    by (apply Qlt_bool_iff; rewrite Ah; reflexivity).
  assert (E4 : Qlt_bool (Qabs v) (0.25 / 2) = true)
    by (apply Qlt_bool_iff; rewrite Av; reflexivity).
  rewrite E1, E2, E3, E4. simpl. unfold py_min.
  destruct (Qlt_bool ((sh + sv) / 2.0 * 1.2) 1.0) eqn:E; [|reflexivity].
  exfalso. apply Qlt_bool_iff in E. revert E.
  unfold Qdiv. rewrite Qinv_2_0, Sh, Sv. apply Qle_not_lt. discriminate.
Qed.



(** The attention of one authorized face, from its head score. *)
Lemma attention_one_face f phone_present :
  attention_score [f] true phone_present =
    attention_of (_compute_head_score f) 1.0 (if phone_present then 1.0 else 0.0).
Proof. reflexivity. Qed.

Lemma attention_of_value h p :
  attention_of h 1.0 p =
    if Qlt_bool 0.8 h
    then py_min 100 ((W_FACE * 1.0 + W_HEAD * h + W_PHONE * (1 - p))
                     / (W_FACE + W_HEAD + W_PHONE) * 100 * 1.1)
    else (W_FACE * 1.0 + W_HEAD * h + W_PHONE * (1 - p))
         / (W_FACE + W_HEAD + W_PHONE) * 100.
Proof. reflexivity. Qed.

(** The weighted sum, with the weights' total simplified away. *)
Lemma base_times_100 h p :
  (W_FACE * 1.0 + W_HEAD * h + W_PHONE * (1 - p))
  / (W_FACE + W_HEAD + W_PHONE) * 100 == 50 + 50 * h - 10 * p.
Proof.
  unfold W_FACE, W_HEAD, W_PHONE.
  assert (Hw : 0.40 + 0.50 + 0.10 == 1) by reflexivity.
  assert (Hone : / 1 == 1) by reflexivity.
  rewrite Hw. unfold Qdiv. rewrite Hone. ring.
Qed.

Lemma attention_of_low_iff h p limit :
  (p == 0 /\ limit == 0.2) \/ (p == 1 /\ limit == 0.4) ->
  (attention_of h 1.0 p < FOCUS_THRESHOLD <-> h < limit).
Proof.
  intro Hp. rewrite attention_of_value. unfold FOCUS_THRESHOLD.
  pose proof (base_times_100 h p) as Hb.
  set (a := (W_FACE * 1.0 + W_HEAD * h + W_PHONE * (1 - p))
            / (W_FACE + W_HEAD + W_PHONE) * 100) in *.
  destruct (Qlt_bool 0.8 h) eqn:E.
  - apply Qlt_bool_iff in E. split; intro H; exfalso.
    + unfold py_min in H. destruct (Qlt_bool (a * 1.1) 100).
      * destruct Hp as [[Hp _]|[Hp _]]; rewrite Hp in Hb; lra.
      * revert H. apply Qle_not_lt. discriminate.
    + destruct Hp as [[_ Hl]|[_ Hl]]; lra.
  - apply Qlt_bool_false_iff in E.
    destruct Hp as [[Hp Hl]|[Hp Hl]]; rewrite Hp in Hb; split; intro H; lra.
Qed.

Lemma py_min_mono a b c : b <= c -> py_min a b <= py_min a c.
Proof.
  intro H. unfold py_min.
  destruct (Qlt_bool b a) eqn:E1; destruct (Qlt_bool c a) eqn:E2;
    try apply Qlt_bool_iff in E1; try apply Qlt_bool_iff in E2;
    try apply Qlt_bool_false_iff in E1; try apply Qlt_bool_false_iff in E2; lra.
Qed.

Lemma attention_of_phone h : attention_of h 1.0 1.0 <= attention_of h 1.0 0.0.
Proof.
  rewrite !attention_of_value.
  pose proof (base_times_100 h 1.0) as H1.
  pose proof (base_times_100 h 0.0) as H0.
  destruct (Qlt_bool 0.8 h); [apply py_min_mono|]; lra.
Qed.

Lemma attention_of_nonneg h p :
  0 <= h -> p == 0 \/ p == 1 -> 0 <= attention_of h 1.0 p.
Proof.
  intros Hh Hp. rewrite attention_of_value.
  pose proof (base_times_100 h p) as Hb.
  set (a := (W_FACE * 1.0 + W_HEAD * h + W_PHONE * (1 - p))
            / (W_FACE + W_HEAD + W_PHONE) * 100) in *.
  destruct (Qlt_bool 0.8 h); [apply py_min_ge|];
    destruct Hp as [Hp|Hp]; rewrite Hp in Hb; lra.
Qed.

Lemma attention_of_ge_40 h p :
  0 <= h -> p == 0 \/ p == 1 -> 40 <= attention_of h 1.0 p.
Proof.
  intros Hh Hp. rewrite attention_of_value.
  pose proof (base_times_100 h p) as Hb.
  set (a := (W_FACE * 1.0 + W_HEAD * h + W_PHONE * (1 - p))
            / (W_FACE + W_HEAD + W_PHONE) * 100) in *.
  destruct (Qlt_bool 0.8 h); [apply py_min_ge|];
    destruct Hp as [Hp|Hp]; rewrite Hp in Hb; lra.
Qed.

Lemma head_score_in_unit_interval_aux f : 0 <= _compute_head_score f.
Proof.
  destruct (compute_head_score_cases f) as [->|(h & v & ->)].
  - discriminate.
  - apply head_score_of_range.
Qed.

Lemma attention_floor f phone_present :
  40 <= attention_score [f] true phone_present.
Proof.
  rewrite attention_one_face. apply attention_of_ge_40.
  - apply head_score_in_unit_interval_aux.
  - destruct phone_present; [right|left]; reflexivity.
Qed.

(** X1. The head score of every detected face lies between 0 and 1. *)
Theorem head_score_in_unit_interval f :
  0 <= _compute_head_score f <= 1.
Proof.
  destruct (compute_head_score_cases f) as [->|(h & v & ->)].
  - split; discriminate.
  - apply head_score_of_range.
Qed.

(** X2. A nose exactly midway between the eyes, on the eye line, scores
    exactly 1.0, whatever the eye distance and the bounding box; the
    attention of that face, authorized, is 100 without a phone. *)
Theorem head_score_centered f left_eye right_eye nose rest :
  kps f = Some (left_eye :: right_eye :: nose :: rest) ->
  fst nose == (fst left_eye + fst right_eye) / 2.0 ->
  snd nose == (snd left_eye + snd right_eye) / 2.0 ->
  _compute_head_score f = 1.0 /\
  attention_score [f] true false = 100.
Proof.
  intros Hk Hx Hy.
  assert (Hs : _compute_head_score f = 1.0).
  { rewrite (compute_head_score_offsets _ _ _ _ _ Hk).
    apply head_score_of_centered.
    - unfold nose_center_offset. rewrite Hx. unfold Qdiv. ring.
    - unfold vert_offset. destruct (bbox f) as [[[x0 y0] x1] y1].
      rewrite Hy. unfold Qdiv. ring. }
  rewrite !attention_one_face, Hs. split; reflexivity.
Qed.



(** X5. A face whose keypoints are missing, or fewer than three, scores
    0.0; authorized, its attention is 50 without a phone and 40 with one,
    below the focus threshold either way. *)
Theorem missing_keypoints_score_zero f :
  kps f = None \/ (exists k, kps f = Some k /\ (List.length k < 3)%nat) ->
  _compute_head_score f = 0.0 /\
  attention_score [f] true false == 50 /\
  attention_score [f] true true == 40 /\
  forall phone_present, attention_score [f] true phone_present < FOCUS_THRESHOLD.
Proof.
  intro Hk.
  assert (Hs : _compute_head_score f = 0.0).
  { unfold _compute_head_score.
    destruct Hk as [->|(k & -> & Hlen)]; [reflexivity|].
    destruct k as [|a [|b [|c k]]]; try reflexivity. simpl in Hlen. lia. }
  rewrite !attention_one_face, Hs.
  split; [reflexivity|split; [reflexivity|split; [reflexivity|]]].
  intro p. rewrite attention_one_face, Hs. destruct p; reflexivity.
Qed.

(** X6. For one cached, authorized face, a head score of at least 0.2
    without a phone, or of at least 0.4 with a phone cached as present, keeps
    the attention score at or above the focus threshold: an attention score
    below it needs a lower head score. *)
Theorem attention_low_needs_low_head_score f (phone_present : bool) :
  (if phone_present then 0.4 else 0.2) <= _compute_head_score f ->
  FOCUS_THRESHOLD <= attention_score [f] true phone_present.
Proof.
  intro Hh. apply Qnot_lt_le. intro Hlow.
  rewrite attention_one_face in Hlow. destruct phone_present.
  - apply (attention_of_low_iff _ 1.0 0.4) in Hlow;
      [lra|right; split; reflexivity].
  - apply (attention_of_low_iff _ 0.0 0.2) in Hlow;
      [lra|left; split; reflexivity].
Qed.

(** X7. The attention score is never negative, a cached phone never raises
    it, and one authorized face never scores below 40. *)
Theorem attention_floor_and_phone_penalty faces authorized :
  (forall phone_present, 0 <= attention_score faces authorized phone_present) /\
  attention_score faces authorized true <= attention_score faces authorized false /\
  (forall f phone_present, 40 <= attention_score [f] true phone_present).
Proof.
  split; [|split].
  - intro p. destruct faces as [|f [|f' fs]]; try discriminate.
    destruct authorized; try discriminate.
    rewrite attention_one_face. apply attention_of_nonneg.
    + apply head_score_in_unit_interval_aux.
    + destruct p; [right|left]; reflexivity.
  - destruct faces as [|f [|f' fs]]; try apply Qle_refl.
    destruct authorized; try apply Qle_refl.
    rewrite !attention_one_face. apply attention_of_phone.
  - intros f p. rewrite attention_one_face. apply attention_of_ge_40.
    + apply head_score_in_unit_interval_aux.
    + destruct p; [right|left]; reflexivity.
Qed.

(** * Further properties of the session *)

Section Coverage.

Variable Image : Type.
Variable cv2_imdecode : list Byte.byte -> Outcome (option Image).
Variable face_app_get : Image -> Outcome (list Face).
Variable phone_detector_detect : Image -> Outcome bool.
Variable np_linalg_norm : list Q -> Q.

Local Abbreviation decode := (_decode_frame cv2_imdecode).
Local Abbreviation register := (register_user_from_frame cv2_imdecode face_app_get).
Local Abbreviation faces_step := (face_detection face_app_get np_linalg_norm).
Local Abbreviation phone_step := (phone_detection phone_detector_detect).
Local Abbreviation body :=
  (process_frame_body cv2_imdecode face_app_get phone_detector_detect np_linalg_norm).
Local Abbreviation process :=
  (process_frame cv2_imdecode face_app_get phone_detector_detect np_linalg_norm).
Local Abbreviation run :=
  (run cv2_imdecode face_app_get phone_detector_detect np_linalg_norm).
Local Abbreviation frames_loop :=
  (process_frames cv2_imdecode face_app_get phone_detector_detect np_linalg_norm).

Ltac exec := unfold bind, ret, raise, self, assign, invoke, eval in *; simpl in *.

Ltac case_split :=
  match goal with
  | H : context [match ?x with _ => _ end] |- _ =>
      let E := fresh "E" in destruct x eqn:E; simpl in H
  | |- context [match ?x with _ => _ end] =>
      let E := fresh "E" in destruct x eqn:E; simpl
  end.

Ltac inv_eqs :=
  repeat match goal with
    | H : (_, _) = (_, _) |- _ => inversion H; subst; clear H
    | H : Return _ = Return _ |- _ => inversion H; subst; clear H
    | H : Raise _ = Return _ |- _ => discriminate H
    | H : Return _ = Raise _ |- _ => discriminate H
    end.

Ltac crush :=
  repeat (match goal with
          | |- _ /\ _ => split
          | |- _ <-> _ => split
          | |- _ <> _ => intro
          | |- forall _, _ => intro
          | H : _ /\ _ |- _ => destruct H
          | H : exists _, _ |- _ => destruct H
          end);
  inv_eqs; simpl in *; rewrite ?app_nil_r in *;
  try solve [ auto | congruence | discriminate | tauto
            | eexists; reflexivity
            | rewrite existsb_app; simpl; apply orb_false_r
            | apply Qle_bool_iff; assumption
            | apply Qlt_bool_iff; assumption
            | right; repeat split; auto; eexists; repeat split; eauto;
              apply Qle_bool_iff; assumption ].

(** *** Registration *)

(** [register] branch by branch. *)
Lemma register_cases now frame_bytes s log :
  register now frame_bytes (s, log) =
    match ref_embedding s with
    | Some _ => ((false, "User is already registered."%string), (s, log))
    | None =>
        match decode frame_bytes with
        | None => ((false, "Invalid image data."%string), (s, log))
        | Some frame =>
            match face_app_get frame with
            | Raise _ =>
                ((false, "An internal error occurred."%string),
                 (s, log ++ [FaceAppGet]))
            | Return [] =>
                ((false, "No face found in registration frame."%string),
                 (s, log ++ [FaceAppGet]))
            | Return [f] =>
                ((true, "User registered successfully."%string),
                 (set_last_phone_check_time now
                    (set_last_face_check_time now
                       (set_last_authorized true
                          (set_last_faces [f]
                             (set_ref_embedding (Some (embedding f)) s)))),
                  log ++ [FaceAppGet]))
            | Return (_ :: _ :: _) =>
                ((false, "Multiple faces found. Only one person allowed."%string),
                 (s, log ++ [FaceAppGet]))
            end
        end
    end.
Proof.
  unfold register_user_from_frame, register_body. simpl.
  destruct (ref_embedding s); [reflexivity|].
  destruct (decode frame_bytes) as [frame|]; [|reflexivity].
  exec. destruct (face_app_get frame) as [[|f [|f' fs]]|e]; reflexivity.
Qed.

(** X8. [register] succeeds exactly when the session is unregistered, the
    frame decodes and the face model returns exactly one face.  A failed
    registration, whatever its cause (a raising face model included), leaves
    every session field as it was; the face model is invoked at most once and
    the phone model never. *)
Theorem register_success_iff now frame_bytes s log :
  let out := register now frame_bytes (s, log) in
  (fst (fst out) = true <->
     ref_embedding s = None /\
     exists frame f, decode frame_bytes = Some frame /\
                     face_app_get frame = Return [f]) /\
  (fst (fst out) = false -> fst (snd out) = s) /\
  (snd (snd out) = log \/ snd (snd out) = log ++ [FaceAppGet]).
Proof.
  intro out. subst out. rewrite register_cases.
  destruct (ref_embedding s) as [r|]; simpl.
  { split; [|auto]. split; [discriminate|]. intros [H _]. discriminate H. }
  destruct (decode frame_bytes) as [frame|]; simpl.
  2:{ split; [|auto]. split; [discriminate|].
      intros [_ (fr & f & H & _)]. discriminate H. }
  destruct (face_app_get frame) as [[|f [|f' fs]]|e] eqn:Ef; simpl.
  - split; [|split; [reflexivity|right; reflexivity]].
    split; [discriminate|]. intros [_ (fr & f0 & Hd & Hf)]. congruence.
  - split; [|split; [discriminate|right; reflexivity]].
    split; [|reflexivity]. intros _. split; [reflexivity|].
    exists frame, f. split; [reflexivity|assumption].
  - split; [|split; [reflexivity|right; reflexivity]].
    split; [discriminate|]. intros [_ (fr & f0 & Hd & Hf)]. congruence.
  - split; [|split; [reflexivity|right; reflexivity]].
    split; [discriminate|]. intros [_ (fr & f0 & Hd & Hf)]. congruence.
Qed.

(** *** One call of [process_frame], section by section *)

(** A call either ends with one [ERROR] record or runs its three sections
    to the end. *)
Lemma process_cases now frame_bytes w :
  (exists msg, fst (process now frame_bytes w) = [ERROR msg]) \/
  (exists frame ev1 w1 ev2 w2,
     decode frame_bytes = Some frame /\
     faces_step now frame [] w = (Return ev1, w1) /\
     phone_step now frame ev1 w1 = (Return ev2, w2) /\
     distraction_alert now ev2 w2 = (Return (fst (process now frame_bytes w)),
                                     snd (process now frame_bytes w))).
Proof.
  unfold process_frame, process_frame_body.
  destruct (decode frame_bytes) as [frame|]; [|left; eexists; reflexivity].
  unfold bind.
  destruct (faces_step now frame [] w) as [[ev1|e] w1] eqn:E1;
    [|left; eexists; reflexivity].
  destruct (phone_step now frame ev1 w1) as [[ev2|e] w2] eqn:E2;
    [|left; eexists; reflexivity].
  destruct (distraction_alert now ev2 w2) as [[ev3|e] w3] eqn:E3;
    [|left; eexists; reflexivity].
  right. exists frame, ev1, w1, ev2, w2. auto.
Qed.

(** Section 1 returns nothing, or one face event with the session left
    unauthorized. *)
Lemma face_detection_shape now frame w ev1 w1 :
  faces_step now frame [] w = (Return ev1, w1) ->
  ev1 = [] \/
  (exists e, ev1 = [e] /\ is_face_event e = true /\
             kind_is "LOOKING_AWAY" e = false /\
             kind_is "PHONE_DETECTED" e = false /\
             last_authorized (fst w1) = false).
Proof.
  destruct w as [s log]. unfold face_detection. exec. intro H.
  repeat case_split; inv_eqs; auto; right; eexists; repeat split; reflexivity.
Qed.

(** Section 1: the face fields, the reference and the call log. *)
Lemma face_detection_effect now frame events s log r s1 log1 :
  faces_step now frame events (s, log) = (r, (s1, log1)) ->
  ref_embedding s1 = ref_embedding s /\
  last_phone_check_time s1 = last_phone_check_time s /\
  last_phone_present s1 = last_phone_present s /\
  phone_presence_start_time s1 = phone_presence_start_time s /\
  distracted_start_time s1 = distracted_start_time s /\
  log1 = log ++ (if Qle_bool FACE_CHECK_INTERVAL (now - last_face_check_time s)
                 then [FaceAppGet] else []) /\
  (Qle_bool FACE_CHECK_INTERVAL (now - last_face_check_time s) = false ->
     s1 = s /\ r = Return events) /\
  (authorized_ok s -> authorized_ok s1) /\
  (ref_embedding s = None -> last_authorized s = false ->
     last_authorized s1 = false /\
     forall ev, r = Return ev ->
       existsb (kind_is "UNAUTHORIZED_PERSON") ev
         = existsb (kind_is "UNAUTHORIZED_PERSON") events).
Proof.
  unfold face_detection, authorized_ok, similarity. exec. intro H.
  destruct (Qle_bool FACE_CHECK_INTERVAL (now - last_face_check_time s)) eqn:Eg;
    simpl in H; [|crush].
  destruct (face_app_get frame) as [[|f [|f' fs]]|e] eqn:Ef; simpl in H;
    [crush| |crush|crush].
  destruct (ref_embedding s) as [rf|] eqn:Er; simpl in H; [|crush].
  destruct (np_dot rf (embedding f)) as [d|e]; simpl in H; [|crush].
  destruct (np_le _ AUTHORIZED_THRESHOLD); simpl in H; crush.
Qed.

(** Section 2: what it returns and what it touches. *)
Lemma phone_detection_effect now frame events s log r s2 log2 :
  phone_step now frame events (s, log) = (r, (s2, log2)) ->
  ref_embedding s2 = ref_embedding s /\
  last_face_check_time s2 = last_face_check_time s /\
  last_faces s2 = last_faces s /\
  last_authorized s2 = last_authorized s /\
  distracted_start_time s2 = distracted_start_time s /\
  log2 = log ++ (if Qle_bool PHONE_CHECK_INTERVAL (now - last_phone_check_time s)
                 then [PhoneDetectorDetect] else []) /\
  (Qle_bool PHONE_CHECK_INTERVAL (now - last_phone_check_time s) = false ->
     exists ev, r = Return ev) /\
  (forall ev, r = Return ev ->
     (phone_presence_start_time s2 = None <-> last_phone_present s2 = false) /\
     (phone_presence_start_time s2 = phone_presence_start_time s \/
      phone_presence_start_time s2 = None \/
      phone_presence_start_time s2 = Some now) /\
     (ev = events \/
      ev = events ++ [PHONE_DETECTED now] /\
      last_phone_present s2 = true /\
      exists t, phone_presence_start_time s = Some t /\
                phone_presence_start_time s2 = Some t /\
                PHONE_ALERT_SECONDS <= now - t)).
Proof.
  unfold phone_detection. exec. intro H.
  destruct (Qle_bool PHONE_CHECK_INTERVAL (now - last_phone_check_time s)) eqn:Eg;
    simpl in H.
  - destruct (phone_detector_detect frame) as [[|]|e]; simpl in H;
      [|crush|crush].
    destruct (phone_presence_start_time s) as [t|] eqn:Et; simpl in H; [|crush].
    destruct (Qle_bool PHONE_ALERT_SECONDS (now - t)) eqn:Ea; simpl in H; crush.
  - destruct (last_phone_present s) eqn:Ep; simpl in H; [|crush].
    destruct (phone_presence_start_time s) as [t|] eqn:Et; simpl in H; [|crush].
    destruct (Qle_bool PHONE_ALERT_SECONDS (now - t)) eqn:Ea; simpl in H; crush.
Qed.

(** Sections 3 and 4: what they return and what they touch. *)
Lemma distraction_alert_effect now events s log :
  exists ev s3,
    distraction_alert now events (s, log) = (Return ev, (s3, log)) /\
    ref_embedding s3 = ref_embedding s /\
    last_face_check_time s3 = last_face_check_time s /\
    last_faces s3 = last_faces s /\
    last_authorized s3 = last_authorized s /\
    last_phone_check_time s3 = last_phone_check_time s /\
    last_phone_present s3 = last_phone_present s /\
    phone_presence_start_time s3 = phone_presence_start_time s /\
    (distracted_start_time s3 = distracted_start_time s \/
     distracted_start_time s3 = None \/
     distracted_start_time s3 = Some now) /\
    (distracted_start_time s3 <> None ->
       last_authorized s = true /\
       attention_score (last_faces s) (last_authorized s) (last_phone_present s)
         < FOCUS_THRESHOLD) /\
    (ev = events \/
     ev = events ++ [LOOKING_AWAY
                      (py_int (attention_score (last_faces s) (last_authorized s)
                                 (last_phone_present s))) now] /\
     last_authorized s = true /\
     attention_score (last_faces s) (last_authorized s) (last_phone_present s)
       < FOCUS_THRESHOLD /\
     exists t, distracted_start_time s = Some t /\
               distracted_start_time s3 = Some t /\
               FOCUS_ALERT_TIME <= now - t).
Proof.
  unfold distraction_alert. exec.
  set (a := attention_score (last_faces s) (last_authorized s)
              (last_phone_present s)).
  destruct (Qlt_bool a FOCUS_THRESHOLD && last_authorized s) eqn:Ec; simpl.
  - apply andb_true_iff in Ec. destruct Ec as [Ea Eau].
    apply Qlt_bool_iff in Ea.
    destruct (distracted_start_time s) as [t|] eqn:Et; simpl.
    + destruct (Qle_bool FOCUS_ALERT_TIME (now - t)) eqn:El; simpl;
        eexists; eexists; (split; [reflexivity|]); crush.
    + eexists; eexists; (split; [reflexivity|]); crush.
  - eexists; eexists; (split; [reflexivity|]); crush.
Qed.

(** The four ways a call can go: the frame does not decode, section 1
    raises, section 2 raises, or all sections complete. *)
Lemma process_outcome now frame_bytes s log :
  (decode frame_bytes = None /\
   process now frame_bytes (s, log) = ([ERROR "Invalid frame data."], (s, log)))
  \/
  (exists frame e s1 log1,
     decode frame_bytes = Some frame /\
     faces_step now frame [] (s, log) = (Raise e, (s1, log1)) /\
     process now frame_bytes (s, log)
       = ([ERROR "An internal error occurred."], (s1, log1)))
  \/
  (exists frame ev1 s1 log1 e s2 log2,
     decode frame_bytes = Some frame /\
     faces_step now frame [] (s, log) = (Return ev1, (s1, log1)) /\
     phone_step now frame ev1 (s1, log1) = (Raise e, (s2, log2)) /\
     process now frame_bytes (s, log)
       = ([ERROR "An internal error occurred."], (s2, log2)))
  \/
  (exists frame ev1 s1 log1 ev2 s2 log2 ev3 s3,
     decode frame_bytes = Some frame /\
     faces_step now frame [] (s, log) = (Return ev1, (s1, log1)) /\
     phone_step now frame ev1 (s1, log1) = (Return ev2, (s2, log2)) /\
     distraction_alert now ev2 (s2, log2) = (Return ev3, (s3, log2)) /\
     process now frame_bytes (s, log) = (ev3, (s3, log2))).
Proof.
  unfold process_frame, process_frame_body.
  destruct (decode frame_bytes) as [frame|]; [|left; split; reflexivity].
  right. unfold bind.
  destruct (faces_step now frame [] (s, log)) as [[ev1|e] [s1 log1]] eqn:E1.
  2:{ left. exists frame, e, s1, log1. auto. }
  right.
  destruct (phone_step now frame ev1 (s1, log1)) as [[ev2|e] [s2 log2]] eqn:E2.
  2:{ left. exists frame, ev1, s1, log1, e, s2, log2. auto. }
  right.
  destruct (distraction_alert_effect now ev2 s2 log2) as (ev3 & s3 & E3 & _).
  rewrite E3. exists frame, ev1, s1, log1, ev2, s2, log2, ev3, s3. auto 10.
Qed.

(** *** Model invocations *)

(** X10. One call of [process_frame] invokes the face model exactly when
    the frame decodes and the face interval has elapsed, and then once; it
    invokes the phone model at most once, after the face model, and only when
    the phone interval has elapsed. *)
Theorem process_frame_calls now frame_bytes s log :
  exists phone_calls,
    snd (snd (process now frame_bytes (s, log))) =
      log
      ++ (match decode frame_bytes with
          | Some _ =>
              if Qle_bool FACE_CHECK_INTERVAL (now - last_face_check_time s)
              then [FaceAppGet] else []
          | None => []
          end)
      ++ phone_calls /\
    (phone_calls = [] \/
     phone_calls = [PhoneDetectorDetect] /\
     PHONE_CHECK_INTERVAL <= now - last_phone_check_time s).
Proof.
  destruct (process_outcome now frame_bytes s log)
    as [(Hd & ->)
       |[(frame & e & s1 & log1 & Hd & H1 & ->)
        |[(frame & ev1 & s1 & log1 & e & s2 & log2 & Hd & H1 & H2 & ->)
         |(frame & ev1 & s1 & log1 & ev2 & s2 & log2 & ev3 & s3
           & Hd & H1 & H2 & H3 & ->)]]];
    rewrite Hd; simpl.
  - exists []. rewrite app_nil_r. auto.
  - destruct (face_detection_effect _ _ _ _ _ _ _ _ H1)
      as (_ & _ & _ & _ & _ & Hl & _).
    exists []. rewrite app_nil_r. auto.
  - destruct (face_detection_effect _ _ _ _ _ _ _ _ H1)
      as (_ & Ht & _ & _ & _ & Hl & _).
    destruct (phone_detection_effect _ _ _ _ _ _ _ _ H2)
      as (_ & _ & _ & _ & _ & Hl2 & _).
    rewrite Ht in Hl2. subst log1 log2. rewrite <- app_assoc.
    destruct (Qle_bool PHONE_CHECK_INTERVAL (now - last_phone_check_time s))
      eqn:Eg; eexists; (split; [reflexivity|]); auto.
    right. split; [reflexivity|now apply Qle_bool_iff].
  - destruct (face_detection_effect _ _ _ _ _ _ _ _ H1)
      as (_ & Ht & _ & _ & _ & Hl & _).
    destruct (phone_detection_effect _ _ _ _ _ _ _ _ H2)
      as (_ & _ & _ & _ & _ & Hl2 & _).
    rewrite Ht in Hl2. subst log1 log2. rewrite <- app_assoc.
    destruct (Qle_bool PHONE_CHECK_INTERVAL (now - last_phone_check_time s))
      eqn:Eg; eexists; (split; [reflexivity|]); auto.
    right. split; [reflexivity|now apply Qle_bool_iff].
Qed.

(** *** The session invariant *)

Lemma process_authorized_ok now frame_bytes s log :
  authorized_ok s ->
  authorized_ok (fst (snd (process now frame_bytes (s, log)))).
Proof.
  intro Hok.
  destruct (process_outcome now frame_bytes s log)
    as [(Hd & ->)
       |[(frame & e & s1 & log1 & Hd & H1 & ->)
        |[(frame & ev1 & s1 & log1 & e & s2 & log2 & Hd & H1 & H2 & ->)
         |(frame & ev1 & s1 & log1 & ev2 & s2 & log2 & ev3 & s3
           & Hd & H1 & H2 & H3 & ->)]]];
    simpl; try assumption.
  - now apply (face_detection_effect _ _ _ _ _ _ _ _ H1).
  - assert (Hok1 : authorized_ok s1)
      by now apply (face_detection_effect _ _ _ _ _ _ _ _ H1).
    destruct (phone_detection_effect _ _ _ _ _ _ _ _ H2)
      as (Hr & _ & Hf & Ha & _).
    unfold authorized_ok in *. rewrite Hr, Hf, Ha. exact Hok1.
  - assert (Hok1 : authorized_ok s1)
      by now apply (face_detection_effect _ _ _ _ _ _ _ _ H1).
    destruct (phone_detection_effect _ _ _ _ _ _ _ _ H2)
      as (Hr & _ & Hf & Ha & _).
    destruct (distraction_alert_effect now ev2 s2 log2)
      as (ev3' & s3' & E3 & Hr3 & _ & Hf3 & Ha3 & _).
    rewrite E3 in H3. inv_eqs.
    unfold authorized_ok in *. rewrite Hr3, Hf3, Ha3, Hr, Hf, Ha. exact Hok1.
Qed.

Lemma register_authorized_ok now frame_bytes s log :
  authorized_ok s ->
  authorized_ok (fst (snd (register now frame_bytes (s, log)))).
Proof.
  intro Hok. rewrite register_cases.
  destruct (ref_embedding s); [exact Hok|].
  destruct (decode frame_bytes) as [frame|]; [|exact Hok].
  destruct (face_app_get frame) as [[|f [|f' fs]]|e]; try exact Hok.
  intros _. simpl. split; [discriminate|reflexivity].
Qed.

Lemma run_authorized_ok ops w :
  authorized_ok (fst w) -> authorized_ok (fst (run ops w)).
Proof.
  revert w. induction ops as [|op ops IH]; intros [s log] Hok; [exact Hok|].
  simpl. apply IH. destruct op as [now fb|now fb]; simpl.
  - now apply register_authorized_ok.
  - now apply process_authorized_ok.
Qed.

(** X11. In every session reached from a fresh one by any sequence of
    [register] and [process_frame] calls, failed calls included, an
    authorized session is registered and caches exactly one face. *)
Theorem authorized_implies_registered ops :
  let s := fst (run ops (__init__, [])) in
  last_authorized s = true ->
  ref_embedding s <> None /\ List.length (last_faces s) = 1%nat.
Proof.
  intro s. subst s. apply (run_authorized_ok ops (__init__, [])).
  intro H. discriminate H.
Qed.

(** *** Before registration *)

Lemma process_unregistered now frame_bytes s log :
  ref_embedding s = None ->
  last_authorized s = false ->
  let out := process now frame_bytes (s, log) in
  existsb (kind_is "LOOKING_AWAY") (fst out) = false /\
  existsb (kind_is "UNAUTHORIZED_PERSON") (fst out) = false /\
  last_authorized (fst (snd out)) = false /\
  ref_embedding (fst (snd out)) = None.
Proof.
  intros Hr Ha out. subst out.
  destruct (process_outcome now frame_bytes s log)
    as [(Hd & ->)
       |[(frame & e & s1 & log1 & Hd & H1 & ->)
        |[(frame & ev1 & s1 & log1 & e & s2 & log2 & Hd & H1 & H2 & ->)
         |(frame & ev1 & s1 & log1 & ev2 & s2 & log2 & ev3 & s3
           & Hd & H1 & H2 & H3 & ->)]]];
    simpl.
  - auto.
  - destruct (face_detection_effect _ _ _ _ _ _ _ _ H1)
      as (Hr1 & _ & _ & _ & _ & _ & _ & _ & Hu).
    destruct (Hu Hr Ha) as [Ha1 _]. repeat split; congruence.
  - destruct (face_detection_effect _ _ _ _ _ _ _ _ H1)
      as (Hr1 & _ & _ & _ & _ & _ & _ & _ & Hu).
    destruct (Hu Hr Ha) as [Ha1 _].
    destruct (phone_detection_effect _ _ _ _ _ _ _ _ H2)
      as (Hr2 & _ & _ & Ha2 & _).
    repeat split; congruence.
  - destruct (face_detection_effect _ _ _ _ _ _ _ _ H1)
      as (Hr1 & _ & _ & _ & _ & _ & _ & _ & Hu).
    destruct (Hu Hr Ha) as [Ha1 Hk1]. specialize (Hk1 ev1 eq_refl).
    simpl in Hk1.
    destruct (face_detection_shape _ _ _ _ _ H1) as [He1|(e1 & He1 & _ & Hl1 & _)].
    + destruct (phone_detection_effect _ _ _ _ _ _ _ _ H2)
        as (Hr2 & _ & _ & Ha2 & _ & _ & _ & Hp).
      destruct (Hp ev2 eq_refl) as (_ & _ & Hev2).
      destruct (distraction_alert_effect now ev2 s2 log2)
        as (ev3' & s3' & E3 & Hr3 & _ & _ & Ha3 & _ & _ & _ & _ & _ & Hev3).
      rewrite E3 in H3. inv_eqs.
      assert (Hev3' : ev3 = ev2).
      { destruct Hev3 as [?|(_ & Hau & _)]; [assumption|congruence]. }
      subst.
      destruct Hev2 as [->|(-> & _)]; simpl; repeat split; congruence.
    + destruct (phone_detection_effect _ _ _ _ _ _ _ _ H2)
        as (Hr2 & _ & _ & Ha2 & _ & _ & _ & Hp).
      destruct (Hp ev2 eq_refl) as (_ & _ & Hev2).
      destruct (distraction_alert_effect now ev2 s2 log2)
        as (ev3' & s3' & E3 & Hr3 & _ & _ & Ha3 & _ & _ & _ & _ & _ & Hev3).
      rewrite E3 in H3. inv_eqs.
      assert (Hev3' : ev3 = ev2).
      { destruct Hev3 as [?|(_ & Hau & _)]; [assumption|congruence]. }
      subst. simpl in Hk1. rewrite orb_false_r in Hk1.
      destruct Hev2 as [->|(-> & _)]; simpl; rewrite ?Hl1, ?Hk1; simpl;
        repeat split; congruence.
Qed.

(** X12. A session that has never been registered successfully (reached
    from a fresh one, its reference embedding still [None]) never returns a
    [LOOKING_AWAY] or an [UNAUTHORIZED_PERSON] event from [process_frame], and
    stays unauthorized and unregistered. *)
Theorem unregistered_never_alerts_identity ops now frame_bytes :
  let w := run ops (__init__, []) in
  ref_embedding (fst w) = None ->
  let out := process now frame_bytes w in
  existsb (kind_is "LOOKING_AWAY") (fst out) = false /\
  existsb (kind_is "UNAUTHORIZED_PERSON") (fst out) = false /\
  last_authorized (fst (snd out)) = false /\
  ref_embedding (fst (snd out)) = None.
Proof.
  intros w Hr.
  assert (Hok : authorized_ok (fst w)).
  { apply (run_authorized_ok ops (__init__, [])). intro H. discriminate H. }
  assert (Ha : last_authorized (fst w) = false).
  { destruct (last_authorized (fst w)) eqn:E; [|reflexivity].
    destruct (Hok E) as [Hc _]. now elim Hc. }
  destruct w as [s log]. now apply process_unregistered.
Qed.

(** Section 2, when the phone model raises: only the check time moved. *)
Lemma phone_detection_raise_keeps now frame events s log e s2 log2 :
  phone_step now frame events (s, log) = (Raise e, (s2, log2)) ->
  phone_presence_start_time s2 = phone_presence_start_time s /\
  last_phone_present s2 = last_phone_present s.
Proof.
  unfold phone_detection. exec. intro H.
  repeat case_split; inv_eqs; simpl; auto.
Qed.

(** The events of a completed call: at most one face event, then at most
    one [PHONE_DETECTED], then at most one [LOOKING_AWAY], each with the
    condition under which it is there. *)
Lemma completed_events now frame s log ev1 s1 log1 ev2 s2 log2 ev3 s3 :
  faces_step now frame [] (s, log) = (Return ev1, (s1, log1)) ->
  phone_step now frame ev1 (s1, log1) = (Return ev2, (s2, log2)) ->
  distraction_alert now ev2 (s2, log2) = (Return ev3, (s3, log2)) ->
  let attention :=
    attention_score (last_faces s3) (last_authorized s3) (last_phone_present s3) in
  exists fe pe le,
    ev3 = fe ++ pe ++ le /\
    (fe = [] \/
     exists e, fe = [e] /\ is_face_event e = true /\
               kind_is "LOOKING_AWAY" e = false /\
               kind_is "PHONE_DETECTED" e = false /\
               last_authorized s3 = false) /\
    (pe = [] \/
     pe = [PHONE_DETECTED now] /\ last_phone_present s3 = true /\
     exists t, phone_presence_start_time s = Some t /\
               phone_presence_start_time s3 = Some t /\
               PHONE_ALERT_SECONDS <= now - t) /\
    (le = [] \/
     le = [LOOKING_AWAY (py_int attention) now] /\
     last_authorized s3 = true /\ attention < FOCUS_THRESHOLD /\
     exists t, distracted_start_time s = Some t /\
               distracted_start_time s3 = Some t /\
               FOCUS_ALERT_TIME <= now - t) /\
    (phone_presence_start_time s3 = None <-> last_phone_present s3 = false) /\
    (distracted_start_time s3 <> None ->
       last_authorized s3 = true /\ attention < FOCUS_THRESHOLD) /\
    (phone_presence_start_time s3 = phone_presence_start_time s \/
     phone_presence_start_time s3 = None \/
     phone_presence_start_time s3 = Some now) /\
    (distracted_start_time s3 = distracted_start_time s \/
     distracted_start_time s3 = None \/
     distracted_start_time s3 = Some now) /\
    (authorized_ok s -> authorized_ok s3).
Proof.
  intros H1 H2 H3 attention. subst attention.
  destruct (face_detection_effect _ _ _ _ _ _ _ _ H1)
    as (_ & _ & _ & Hps1 & Hds1 & _ & _ & Hok1 & _).
  destruct (phone_detection_effect _ _ _ _ _ _ _ _ H2)
    as (Hr2 & _ & Hf2 & Ha2 & Hds2 & _ & _ & Hp).
  destruct (Hp ev2 eq_refl) as (Hiff & Hpst & Hev2).
  destruct (distraction_alert_effect now ev2 s2 log2)
    as (ev3' & s3' & E3 & Hr3 & _ & Hf3 & Ha3 & _ & Hp3 & Hps3 & Hdst & Hdne & Hev3).
  rewrite E3 in H3. inv_eqs.
  rewrite Hf3, Ha3, Hp3, Hps3.
  set (a := attention_score (last_faces s2) (last_authorized s2)
              (last_phone_present s2)) in *.
  assert (Hface :
    ev1 = [] \/
    exists e, ev1 = [e] /\ is_face_event e = true /\
              kind_is "LOOKING_AWAY" e = false /\
              kind_is "PHONE_DETECTED" e = false /\
              last_authorized s2 = false).
  { destruct (face_detection_shape _ _ _ _ _ H1)
      as [->|(e & -> & Hfe & Hl & Hpd & Hau)]; [now left|].
    right. exists e. simpl in Hau. repeat split; auto. congruence. }
  assert (Hrest :
    (phone_presence_start_time s2 = None <-> last_phone_present s2 = false) /\
    (distracted_start_time s3 <> None ->
       last_authorized s2 = true /\ a < FOCUS_THRESHOLD) /\
    (phone_presence_start_time s2 = phone_presence_start_time s \/
     phone_presence_start_time s2 = None \/
     phone_presence_start_time s2 = Some now) /\
    (distracted_start_time s3 = distracted_start_time s \/
     distracted_start_time s3 = None \/
     distracted_start_time s3 = Some now) /\
    (authorized_ok s -> authorized_ok s3)).
  { split; [exact Hiff|split; [exact Hdne|split; [|split]]].
    - rewrite <- Hps1. exact Hpst.
    - rewrite <- Hds1, <- Hds2. exact Hdst.
    - intro Hok. specialize (Hok1 Hok). unfold authorized_ok in *.
      rewrite Hr3, Hf3, Ha3, Hr2, Hf2, Ha2. exact Hok1. }
  destruct Hev2 as [->|(-> & Hpp & t & Ht & Ht2 & Hle)];
    destruct Hev3 as [->|(-> & Hau & Hlow & t' & Ht' & Ht3 & Hle')].
  - exists ev1, [], []. rewrite !app_nil_r.
    split; [reflexivity|split; [exact Hface|split; [now left|split; [now left|]]]].
    exact Hrest.
  - exists ev1, [], [LOOKING_AWAY (py_int a) now]. simpl.
    split; [reflexivity|split; [exact Hface|split; [now left|split; [right|]]]];
      [|exact Hrest].
    repeat split; auto. exists t'. repeat split; auto. congruence.
  - exists ev1, [PHONE_DETECTED now], []. rewrite !app_nil_r.
    split; [reflexivity|split; [exact Hface|split; [right|split; [now left|]]]];
      [|exact Hrest].
    repeat split; auto. exists t. repeat split; auto. congruence.
  - exists ev1, [PHONE_DETECTED now], [LOOKING_AWAY (py_int a) now].
    rewrite <- app_assoc.
    split; [reflexivity|split; [exact Hface|split; [right|split; [right|]]]];
      [| |exact Hrest].
    + repeat split; auto. exists t. repeat split; auto. congruence.
    + repeat split; auto. exists t'. repeat split; auto. congruence.
Qed.

(** [int] of a non-negative float lies between the integers that bound
    it. *)
Lemma py_int_bounds q lo hi :
  (0 <= lo)%Z -> inject_Z lo <= q -> q < inject_Z hi ->
  (lo <= py_int q < hi)%Z.
Proof.
  destruct q as [n d]. unfold py_int, Qle, Qlt, inject_Z. simpl.
  intros Hlo Hle Hlt.
  assert (Hd : (0 < Z.pos d)%Z) by lia.
  assert (Hn : (0 <= n)%Z) by nia.
  rewrite Z.quot_div_nonneg by lia. split.
  - apply Z.div_le_lower_bound; lia.
  - apply Z.div_lt_upper_bound; lia.
Qed.



Lemma attention_score_nonneg faces authorized phone_present :
  0 <= attention_score faces authorized phone_present.
Proof.
  destruct faces as [|f [|f' fs]]; try discriminate.
  destruct authorized; try discriminate.
  rewrite attention_one_face. apply attention_of_nonneg.
  - apply head_score_in_unit_interval_aux.
  - destruct phone_present; [right|left]; reflexivity.
Qed.

(** *** The events of one call *)

(** X13. [process_frame] returns at most two events.  A [LOOKING_AWAY]
    event never comes with a face event ([FACE_NOT_FOUND], [MULTIPLE_FACES],
    [UNAUTHORIZED_PERSON]), and a call that returns a face event leaves the
    session unauthorized. *)
Theorem process_frame_event_shape now frame_bytes s log :
  let out := process now frame_bytes (s, log) in
  (List.length (fst out) <= 2)%nat /\
  (existsb (kind_is "LOOKING_AWAY") (fst out) = true ->
     existsb is_face_event (fst out) = false) /\
  (existsb is_face_event (fst out) = true ->
     last_authorized (fst (snd out)) = false).
Proof.
  intro out. subst out.
  destruct (process_outcome now frame_bytes s log)
    as [(Hd & ->)
       |[(frame & e & s1 & log1 & Hd & H1 & ->)
        |[(frame & ev1 & s1 & log1 & e & s2 & log2 & Hd & H1 & H2 & ->)
         |(frame & ev1 & s1 & log1 & ev2 & s2 & log2 & ev3 & s3
           & Hd & H1 & H2 & H3 & ->)]]];
    simpl; try (split; [lia|split; discriminate]).
  destruct (completed_events _ _ _ _ _ _ _ _ _ _ _ _ H1 H2 H3)
    as (fe & pe & le & -> & Hfe & Hpe & Hle & _).
  destruct Hfe as [->|(e & -> & Hfe & Hl & Hp & Hau)];
    destruct Hpe as [->|(-> & _)];
    destruct Hle as [->|(-> & Hau' & _)];
    try (exfalso; congruence);
    simpl; rewrite ?Hfe, ?Hl; simpl;
    (split; [lia|split; intro; congruence]).
Qed.

(** X14. Every [LOOKING_AWAY] event returned by [process_frame] carries the
    frame's time and an integer score between 0 and 59; when the session
    satisfies the invariant of an authorized session (registered, one cached
    face), the score is at least 40. *)
Theorem looking_away_score_range now frame_bytes s log e :
  In e (fst (process now frame_bytes (s, log))) ->
  kind_is "LOOKING_AWAY" e = true ->
  exists score, e = LOOKING_AWAY score now /\
                (0 <= score <= 59)%Z /\
                (authorized_ok s -> (40 <= score)%Z).
Proof.
  destruct (process_outcome now frame_bytes s log)
    as [(Hd & ->)
       |[(frame & e0 & s1 & log1 & Hd & H1 & ->)
        |[(frame & ev1 & s1 & log1 & e0 & s2 & log2 & Hd & H1 & H2 & ->)
         |(frame & ev1 & s1 & log1 & ev2 & s2 & log2 & ev3 & s3
           & Hd & H1 & H2 & H3 & ->)]]];
    simpl; try (intros [<-|[]]; discriminate).
  destruct (completed_events _ _ _ _ _ _ _ _ _ _ _ _ H1 H2 H3)
    as (fe & pe & le & -> & Hfe & Hpe & Hle & _ & _ & _ & _ & Hok).
  intros Hin Hk. apply in_app_or in Hin. destruct Hin as [Hin|Hin].
  { destruct Hfe as [->|(e1 & -> & _ & Hl & _)]; [destruct Hin|].
    destruct Hin as [<-|[]]. congruence. }
  apply in_app_or in Hin. destruct Hin as [Hin|Hin].
  { destruct Hpe as [->|(-> & _)]; [destruct Hin|].
    destruct Hin as [<-|[]]. discriminate Hk. }
  destruct Hle as [->|(-> & Hau & Hlow & _)]; [destruct Hin|].
  destruct Hin as [<-|[]].
  set (a := attention_score (last_faces s3) (last_authorized s3)
              (last_phone_present s3)) in *.
  exists (py_int a). split; [reflexivity|].
  pose proof (attention_score_nonneg (last_faces s3) (last_authorized s3)
                (last_phone_present s3)) as H0. fold a in H0.
  assert (Hlow' : a < 60) by (unfold FOCUS_THRESHOLD in Hlow; lra).
  split.
  - assert (Hb : (0 <= py_int a < 60)%Z)
      by (apply py_int_bounds; [lia|exact H0|exact Hlow']).
    lia.
  - intro Hs. destruct (Hok Hs Hau) as [_ Hlen].
    assert (H40 : 40 <= a).
    { subst a. rewrite Hau.
      destruct (last_faces s3) as [|f [|f' fs]]; try discriminate Hlen.
      apply attention_floor. }
    assert (Hb : (40 <= py_int a < 60)%Z)
      by (apply py_int_bounds; [lia|exact H40|exact Hlow']).
    lia.
Qed.

(** *** The two timers across calls *)

(** What any call, failed or not, does to the two start times, and what an
    alert in its result says about them. *)
Lemma process_timers now frame_bytes s log :
  let out := process now frame_bytes (s, log) in
  let s' := fst (snd out) in
  (phone_presence_start_time s' = phone_presence_start_time s \/
   phone_presence_start_time s' = None \/
   phone_presence_start_time s' = Some now) /\
  (distracted_start_time s' = distracted_start_time s \/
   distracted_start_time s' = None \/
   distracted_start_time s' = Some now) /\
  (existsb (kind_is "PHONE_DETECTED") (fst out) = true ->
     exists t, phone_presence_start_time s = Some t /\
               PHONE_ALERT_SECONDS <= now - t) /\
  (existsb (kind_is "LOOKING_AWAY") (fst out) = true ->
     exists t, distracted_start_time s = Some t /\
               FOCUS_ALERT_TIME <= now - t) /\
  (existsb (kind_is "ERROR") (fst out) = false ->
     (phone_presence_start_time s' = None <-> last_phone_present s' = false) /\
     (distracted_start_time s' <> None ->
        last_authorized s' = true /\
        attention_score (last_faces s') (last_authorized s')
          (last_phone_present s') < FOCUS_THRESHOLD)).
Proof.
  intros out s'. subst out s'.
  destruct (process_outcome now frame_bytes s log)
    as [(Hd & ->)
       |[(frame & e & s1 & log1 & Hd & H1 & ->)
        |[(frame & ev1 & s1 & log1 & e & s2 & log2 & Hd & H1 & H2 & ->)
         |(frame & ev1 & s1 & log1 & ev2 & s2 & log2 & ev3 & s3
           & Hd & H1 & H2 & H3 & ->)]]];
    simpl.
  - repeat split; auto; discriminate.
  - destruct (face_detection_effect _ _ _ _ _ _ _ _ H1)
      as (_ & _ & _ & Hp & Hdd & _).
    repeat split; auto; discriminate.
  - destruct (face_detection_effect _ _ _ _ _ _ _ _ H1)
      as (_ & _ & _ & Hp & Hdd & _).
    destruct (phone_detection_effect _ _ _ _ _ _ _ _ H2)
      as (_ & _ & _ & _ & Hdd2 & _).
    destruct (phone_detection_raise_keeps _ _ _ _ _ _ _ _ H2) as [Hp2 _].
    repeat split; try discriminate; left; congruence.
  - destruct (completed_events _ _ _ _ _ _ _ _ _ _ _ _ H1 H2 H3)
      as (fe & pe & le & -> & Hfe & Hpe & Hle & Hiff & Hdne & Hpst & Hdst & _).
    split; [exact Hpst|split; [exact Hdst|split; [|split]]].
    + intro Hex.
      destruct Hpe as [->|(-> & _ & t & Ht & _ & Hle')]; [|eauto].
      exfalso. revert Hex.
      destruct Hfe as [->|(e & -> & _ & _ & Hpd & _)];
        destruct Hle as [->|(-> & _)]; simpl; rewrite ?Hpd; discriminate.
    + intro Hex.
      destruct Hle as [->|(-> & _ & _ & t & Ht & _ & Hle')]; [|eauto].
      exfalso. revert Hex.
      destruct Hfe as [->|(e & -> & _ & Hl & _)];
        destruct Hpe as [->|(-> & _)]; simpl; rewrite ?Hl; discriminate.
    + intros _. split; assumption.
Qed.

(** No alert of kind [k], armed through the start time [start] and due
    after [duration], over a burst of frames. *)
Lemma burst_without_alert (k : string) (duration : Q)
  (start : Session -> option Q) :
  (forall now frame_bytes s log,
     let out := process now frame_bytes (s, log) in
     (start (fst (snd out)) = start s \/ start (fst (snd out)) = None \/
      start (fst (snd out)) = Some now) /\
     (existsb (kind_is k) (fst out) = true ->
        exists t, start s = Some t /\ duration <= now - t)) ->
  forall frames w,
    (forall t, start (fst w) = Some t ->
       forall t', In t' (map fst frames) -> t' - t < duration) ->
    (forall t t', In t (map fst frames) -> In t' (map fst frames) ->
       t' - t < duration) ->
    Forall (fun events => existsb (kind_is k) events = false)
      (fst (frames_loop frames w)).
Proof.
  intros Hstep frames.
  induction frames as [|[now fb] rest IH]; intros [s log] Hs Hpair; simpl.
  - constructor.
  - destruct (Hstep now fb s log) as [Hst Hal]. simpl in Hst, Hal.
    destruct (process now fb (s, log)) as [events [s1 log1]] eqn:Ep.
    simpl in Hst, Hal.
    specialize (IH (s1, log1)).
    destruct (frames_loop rest (s1, log1)) as [outs w2] eqn:El. simpl in *.
    constructor.
    + destruct (existsb (kind_is k) events) eqn:E; [|reflexivity].
      destruct (Hal eq_refl) as (t & Ht & Hle). exfalso.
      apply (Qlt_not_le _ _ (Hs t Ht now (or_introl eq_refl)) Hle).
    + apply IH.
      * intros t Ht t' Hin.
        destruct Hst as [Hst|[Hst|Hst]]; rewrite Hst in Ht.
        -- apply (Hs t Ht). now right.
        -- discriminate Ht.
        -- inversion Ht; subst. apply Hpair; [now left|now right].
      * intros t t' Hin Hin'. apply Hpair; now right.
Qed.

(** X15. Phone debounce over a burst: starting with no phone start time
    recorded, a sequence of frames whose times all lie within less than
    [PHONE_ALERT_SECONDS] of each other never returns [PHONE_DETECTED],
    whatever the models report and whichever calls fail. *)
Theorem phone_alert_needs_duration frames w :
  phone_presence_start_time (fst w) = None ->
  (forall t t', In t (map fst frames) -> In t' (map fst frames) ->
     t' - t < PHONE_ALERT_SECONDS) ->
  Forall (fun events => existsb (kind_is "PHONE_DETECTED") events = false)
    (fst (frames_loop frames w)).
Proof.
  intros Hnone Hpair.
  apply (burst_without_alert "PHONE_DETECTED" PHONE_ALERT_SECONDS
           phone_presence_start_time); [|congruence|exact Hpair].
  intros now fb s log.
  destruct (process_timers now fb s log) as (Hp & _ & Ha & _). split; assumption.
Qed.

(** X16. Distraction debounce over a burst: starting with no distracted
    start time recorded, a sequence of frames whose times all lie within less
    than [FOCUS_ALERT_TIME] of each other never returns [LOOKING_AWAY]. *)
Theorem looking_away_needs_duration frames w :
  distracted_start_time (fst w) = None ->
  (forall t t', In t (map fst frames) -> In t' (map fst frames) ->
     t' - t < FOCUS_ALERT_TIME) ->
  Forall (fun events => existsb (kind_is "LOOKING_AWAY") events = false)
    (fst (frames_loop frames w)).
Proof.
  intros Hnone Hpair.
  apply (burst_without_alert "LOOKING_AWAY" FOCUS_ALERT_TIME
           distracted_start_time); [|congruence|exact Hpair].
  intros now fb s log.
  destruct (process_timers now fb s log) as (_ & Hd & _ & Ha & _).
  split; assumption.
Qed.

(** X17. After a call that returns no [ERROR] event, a phone start time is
    recorded exactly when the phone is cached as present, and a distracted
    start time is recorded only for an authorized person whose attention is
    below the focus threshold.  After any call, a start time that was not in
    the future is still not in the future. *)
Theorem timers_follow_cached_state now frame_bytes s log :
  let out := process now frame_bytes (s, log) in
  let s' := fst (snd out) in
  (existsb (kind_is "ERROR") (fst out) = false ->
     (phone_presence_start_time s' = None <-> last_phone_present s' = false) /\
     (distracted_start_time s' <> None ->
        last_authorized s' = true /\
        attention_score (last_faces s') (last_authorized s')
          (last_phone_present s') < FOCUS_THRESHOLD)) /\
  ((forall t, phone_presence_start_time s = Some t -> t <= now) ->
   forall t, phone_presence_start_time s' = Some t -> t <= now) /\
  ((forall t, distracted_start_time s = Some t -> t <= now) ->
   forall t, distracted_start_time s' = Some t -> t <= now).
Proof.
  intros out s'. subst out s'.
  destruct (process_timers now frame_bytes s log) as (Hp & Hd & _ & _ & Hok).
  split; [exact Hok|split].
  - intros Hle t Ht. destruct Hp as [Hp|[Hp|Hp]]; rewrite Hp in Ht.
    + now apply Hle.
    + discriminate Ht.
    + inversion Ht; subst. apply Qle_refl.
  - intros Hle t Ht. destruct Hd as [Hd|[Hd|Hd]]; rewrite Hd in Ht.
    + now apply Hle.
    + discriminate Ht.
    + inversion Ht; subst. apply Qle_refl.
Qed.

(** *** Registration followed by frames *)

(** X9. After a successful registration at time [t], a [process_frame] call
    at a time less than [PHONE_CHECK_INTERVAL] after [t] invokes neither
    model, returns no face event, and leaves the session registered and
    authorized with the registered face cached. *)
Theorem register_then_process t frame_bytes s log msg w1 now frame_bytes' :
  register t frame_bytes (s, log) = ((true, msg), w1) ->
  now - t < PHONE_CHECK_INTERVAL ->
  let out := process now frame_bytes' w1 in
  snd (snd out) = snd w1 /\
  existsb is_face_event (fst out) = false /\
  ref_embedding (fst (snd out)) = ref_embedding (fst w1) /\
  ref_embedding (fst w1) <> None /\
  last_faces (fst (snd out)) = last_faces (fst w1) /\
  last_authorized (fst (snd out)) = true.
Proof.
  intros Hreg Hlt out. subst out. rewrite register_cases in Hreg.
  destruct (ref_embedding s); [inv_eqs; discriminate|].
  destruct (decode frame_bytes) as [frame|]; [|inv_eqs; discriminate].
  destruct (face_app_get frame) as [[|f [|f' fs]]|e]; inv_eqs; try discriminate.
  match goal with
  | |- context [process now frame_bytes' (?st, ?lg)] =>
      set (s1 := st) in *; set (log1 := lg) in *
  end.
  assert (Hgf : Qle_bool FACE_CHECK_INTERVAL (now - last_face_check_time s1) = false).
  { apply Qle_bool_false_iff. simpl. unfold FACE_CHECK_INTERVAL.
    unfold PHONE_CHECK_INTERVAL in Hlt. lra. }
  assert (Hgp : Qle_bool PHONE_CHECK_INTERVAL (now - last_phone_check_time s1) = false).
  { apply Qle_bool_false_iff. simpl. exact Hlt. }
  assert (Hs1 : ref_embedding s1 <> None /\ last_authorized s1 = true)
    by (split; [discriminate|reflexivity]).
  destruct Hs1 as [Hr1 Ha1]. clearbody s1 log1.
  destruct (process_outcome now frame_bytes' s1 log1)
    as [(Hd & ->)
       |[(fr & e & s2 & log2 & Hd & H1 & ->)
        |[(fr & ev1 & s2 & log2 & e & s3 & log3 & Hd & H1 & H2 & ->)
         |(fr & ev1 & s2 & log2 & ev2 & s3 & log3 & ev3 & s4
           & Hd & H1 & H2 & H3 & ->)]]];
    simpl.
  - repeat split; auto.
  - destruct (face_detection_effect _ _ _ _ _ _ _ _ H1)
      as (_ & _ & _ & _ & _ & _ & Hcl & _).
    destruct (Hcl Hgf) as [_ Hc]. discriminate Hc.
  - destruct (face_detection_effect _ _ _ _ _ _ _ _ H1)
      as (_ & _ & _ & _ & _ & _ & Hcl & _).
    destruct (Hcl Hgf) as [-> _].
    destruct (phone_detection_effect _ _ _ _ _ _ _ _ H2)
      as (_ & _ & _ & _ & _ & _ & Hcl2 & _).
    destruct (Hcl2 Hgp) as [ev Hc]. discriminate Hc.
  - destruct (face_detection_effect _ _ _ _ _ _ _ _ H1)
      as (_ & _ & _ & _ & _ & Hl1 & Hcl & _).
    rewrite Hgf, app_nil_r in Hl1. destruct (Hcl Hgf) as [Hs2 Hev1].
    destruct (phone_detection_effect _ _ _ _ _ _ _ _ H2)
      as (Hr3 & _ & Hf3 & Ha3 & _ & Hl2 & _ & Hp).
    rewrite Hs2 in Hl2. rewrite Hgp, app_nil_r in Hl2.
    destruct (Hp ev2 eq_refl) as (_ & _ & Hev2).
    destruct (distraction_alert_effect now ev2 s3 log3)
      as (ev3' & s4' & E3 & Hr4 & _ & Hf4 & Ha4 & _ & _ & _ & _ & _ & Hev3).
    rewrite E3 in H3. inv_eqs.
    split; [reflexivity|split; [|repeat split; congruence]].
    destruct Hev2 as [->|(-> & _)]; destruct Hev3 as [->|(-> & _)]; reflexivity.
Qed.

(** *** The distraction timer, with the score's range *)


End Coverage.

(** * The further properties on concrete inputs *)

Lemma head_score_centered_witness :
  _compute_head_score face_front = 1.0 /\
  attention_score [face_front] true false = 100.
Proof.
  exact (head_score_centered face_front (1, 1) (3, 1) (2, 1) []
           eq_refl eq_refl eq_refl).
Defined.



Lemma missing_keypoints_score_zero_witness :
  _compute_head_score face_no_kps = 0.0 /\
  _compute_head_score face_two_kps = 0.0 /\
  attention_score [face_two_kps] true true == 40.
Proof.
  assert (H2 : exists k, kps face_two_kps = Some k /\ (List.length k < 3)%nat)
    by (exists [(1, 1); (3, 1)]; split; [reflexivity|simpl; lia]).
  destruct (missing_keypoints_score_zero face_no_kps (or_introl eq_refl))
    as (Hn & _).
  destruct (missing_keypoints_score_zero face_two_kps (or_intror H2))
    as (Ht & _ & Hp & _).
  split; [exact Hn|split; [exact Ht|exact Hp]].
Defined.

Lemma register_then_process_witness :
  snd (snd (stub_process_frame 102 (frame Byte.x03 Byte.x01)
              (snd (stub_register 100 (frame Byte.x01 Byte.x00) (__init__, [])))))
    = [FaceAppGet] /\
  last_authorized
    (fst (snd (stub_process_frame 102 (frame Byte.x03 Byte.x01)
                 (snd (stub_register 100 (frame Byte.x01 Byte.x00)
                         (__init__, []))))))
    = true.
Proof.
  assert (Hlt : 102 - 100 < PHONE_CHECK_INTERVAL) by reflexivity.
  destruct (register_then_process _ stub_imdecode stub_face_get
              stub_phone_detect stub_norm 100 (frame Byte.x01 Byte.x00)
              __init__ [] _ _ 102 (frame Byte.x03 Byte.x01) eq_refl Hlt)
    as (Hlog & _ & _ & _ & _ & Hauth).
  split; [exact Hlog|exact Hauth].
Defined.

Lemma authorized_implies_registered_witness :
  ref_embedding
    (fst (run stub_imdecode stub_face_get stub_phone_detect stub_norm
            [OpRegister 100 (frame Byte.x01 Byte.x00);
             OpProcessFrame 105 (frame Byte.x01 Byte.x05)]
            (__init__, [])))
    <> None /\
  List.length
    (last_faces
       (fst (run stub_imdecode stub_face_get stub_phone_detect stub_norm
               [OpRegister 100 (frame Byte.x01 Byte.x00);
                OpProcessFrame 105 (frame Byte.x01 Byte.x05)]
               (__init__, []))))
    = 1%nat.
Proof.
  exact (authorized_implies_registered _ stub_imdecode stub_face_get
           stub_phone_detect stub_norm
           [OpRegister 100 (frame Byte.x01 Byte.x00);
            OpProcessFrame 105 (frame Byte.x01 Byte.x05)] eq_refl).
Defined.

Lemma unregistered_never_alerts_identity_witness :
  existsb (kind_is "LOOKING_AWAY")
    (fst (stub_process_frame 200 (frame Byte.x03 Byte.x01)
            (run stub_imdecode stub_face_get stub_phone_detect stub_norm
               [OpRegister 100 (frame Byte.x02 Byte.x00);
                OpProcessFrame 105 (frame Byte.x00 Byte.x01)]
               (__init__, []))))
    = false /\
  existsb (kind_is "UNAUTHORIZED_PERSON")
    (fst (stub_process_frame 200 (frame Byte.x03 Byte.x01)
            (run stub_imdecode stub_face_get stub_phone_detect stub_norm
               [OpRegister 100 (frame Byte.x02 Byte.x00);
                OpProcessFrame 105 (frame Byte.x00 Byte.x01)]
               (__init__, []))))
    = false.
Proof.
  destruct (unregistered_never_alerts_identity _ stub_imdecode stub_face_get
              stub_phone_detect stub_norm
              [OpRegister 100 (frame Byte.x02 Byte.x00);
               OpProcessFrame 105 (frame Byte.x00 Byte.x01)]
              200 (frame Byte.x03 Byte.x01) eq_refl) as (Hl & Hu & _).
  split; [exact Hl|exact Hu].
Defined.

Lemma looking_away_score_range_witness :
  exists score,
    LOOKING_AWAY 50 103 = LOOKING_AWAY score 103 /\ (40 <= score <= 59)%Z.
Proof.
  assert (Hin : In (LOOKING_AWAY 50 103)
                  (fst (stub_process_frame 103 (frame Byte.x04 Byte.x00)
                          (looking_away, [])))) by (left; reflexivity).
  assert (Hok : authorized_ok looking_away)
    by (intros _; split; [discriminate|reflexivity]).
  destruct (looking_away_score_range _ stub_imdecode stub_face_get
              stub_phone_detect stub_norm 103 (frame Byte.x04 Byte.x00)
              looking_away [] _ Hin eq_refl) as (score & He & Hr & H40).
  exists score. split; [exact He|]. specialize (H40 Hok). lia.
Defined.

Ltac pairwise_times :=
  intros t t' Ht Ht'; simpl in Ht, Ht';
  repeat (destruct Ht as [<-|Ht]; [|]); try contradiction;
  repeat (destruct Ht' as [<-|Ht']; [|]); try contradiction; reflexivity.

Lemma phone_alert_needs_duration_witness :
  Forall (fun events => existsb (kind_is "PHONE_DETECTED") events = false)
    (fst (process_frames stub_imdecode stub_face_get stub_phone_detect stub_norm
            [(101, frame Byte.x01 Byte.x01);
             (101.5, frame Byte.x01 Byte.x01);
             (101.9, frame Byte.x01 Byte.x01)]
            (set_last_phone_present true registered, []))).
Proof.
  apply (phone_alert_needs_duration _ stub_imdecode stub_face_get
           stub_phone_detect stub_norm).
  - reflexivity.
  - pairwise_times.
Defined.

Lemma looking_away_needs_duration_witness :
  Forall (fun events => existsb (kind_is "LOOKING_AWAY") events = false)
    (fst (process_frames stub_imdecode stub_face_get stub_phone_detect stub_norm
            [(101, frame Byte.x04 Byte.x00);
             (102, frame Byte.x04 Byte.x00);
             (103.5, frame Byte.x04 Byte.x00)]
            (set_last_faces [face_away] registered, []))).
Proof.
  apply (looking_away_needs_duration _ stub_imdecode stub_face_get
           stub_phone_detect stub_norm).
  - reflexivity.
  - pairwise_times.
Defined.

Lemma attention_low_needs_low_head_score_witness :
  FOCUS_THRESHOLD <= attention_score [face_slight] true true /\
  FOCUS_THRESHOLD <= attention_score [face_slight] true false.
Proof.
  assert (H4 : 0.4 <= _compute_head_score face_slight) by qcmp.
  assert (H2 : 0.2 <= _compute_head_score face_slight) by qcmp.
  split.
  - exact (attention_low_needs_low_head_score face_slight true H4).
  - exact (attention_low_needs_low_head_score face_slight false H2).
Defined.

(** * The amended claims on concrete inputs *)

(** C3, as stated, fails: the phone is cached as present since time 100, at
    time 105 the face model raises, and the call returns the single [ERROR]
    event, without [PHONE_DETECTED]; with no start time recorded, the same
    failing call does not record one. *)
Lemma phone_alert_lost :
  _decode_frame stub_imdecode (frame Byte.x05 Byte.x01)
    = Some (frame Byte.x05 Byte.x01) /\
  stub_face_get (frame Byte.x05 Byte.x01)
    = Raise (CollaboratorError "face model") /\
  last_phone_present phone_armed = true /\
  phone_presence_start_time phone_armed = Some 100 /\
  PHONE_ALERT_SECONDS <= 105 - 100 /\
  stub_process_frame 105 (frame Byte.x05 Byte.x01) (phone_armed, [])
    = ([ERROR "An internal error occurred."],
       (set_last_face_check_time 105 phone_armed, [FaceAppGet])) /\
  existsb (kind_is "PHONE_DETECTED")
    (fst (stub_process_frame 105 (frame Byte.x05 Byte.x01) (phone_armed, [])))
    = false /\
  last_phone_present
    (fst (snd (stub_process_frame 105 (frame Byte.x05 Byte.x01) (phone_armed, []))))
    = true /\
  phone_presence_start_time (set_last_phone_present true registered) = None /\
  phone_presence_start_time
    (fst (snd (stub_process_frame 105 (frame Byte.x05 Byte.x01)
                 (set_last_phone_present true registered, []))))
    = None.
Proof. repeat split; qcmp. Qed.



(** C7, as stated, fails: a registration that finds no face invokes the
    face model at time 100 without writing [last_face_check_time]; one
    second later, well within the face-check interval, [process_frame]
    invokes the face model again. *)
Lemma face_model_invoked_again :
  stub_register 100 (frame Byte.x00 Byte.x00) (__init__, [])
    = ((false, "No face found in registration frame."%string),
       (__init__, [FaceAppGet])) /\
  101 - 100 < FACE_CHECK_INTERVAL /\
  snd (snd (stub_process_frame 101 (frame Byte.x00 Byte.x00)
              (__init__, [FaceAppGet])))
    = [FaceAppGet; FaceAppGet; PhoneDetectorDetect] /\
  calls_of FaceAppGet
    (snd (snd (stub_process_frame 101 (frame Byte.x00 Byte.x00)
                 (__init__, [FaceAppGet]))))
    = 2%nat.
Proof. repeat split; qcmp. Qed.
